(** * resource_mon.py: CPU and disk I/O sampling, embedded and verified

    The development follows [src/resource_mon.py] (Python 2).  Python
    exceptions are an error monad, Python [int]/[long] values are [Z],
    Python [float] values are IEEE 754 binary64 numbers ([spec_float] with
    precision 53 and maximal exponent 1024), [str] values are [string],
    and the two files under /proc together with [time.sleep] are a clock
    threaded through the sampling methods. *)

From Stdlib Require Import ZArith Lia Bool Ascii String QArith.
From Stdlib Require Import Floats.SpecFloat.
From Stdlib Require Import Decimal DecimalString DecimalN DecimalPos.
From stdpp Require Import base tactics option list numbers strings.

Local Open Scope Z_scope.

(** ** Exceptions *)

Inductive exn : Set :=
  | IndexError          (* list index out of range *)
  | ValueError          (* invalid literal for int() / float() *)
  | ZeroDivisionError   (* float division by zero *)
  | OverflowError       (* long int too large to convert to float *)
  | UnboundLocalError.  (* local variable referenced before assignment *)

Inductive result (A : Type) : Type :=
  | Ok (a : A)
  | Raise (e : exn).
Arguments Ok {A} a.
Arguments Raise {A} e.

#[global] Instance result_ret : MRet result := fun A a => Ok a.
#[global] Instance result_bind : MBind result := fun A B f m =>
  match m with
  | Ok a => f a
  | Raise e => Raise e
  end.

Definition raises {A} (m : result A) : Prop := exists e, m = Raise e.

(** ** Python lists *)

Section PyList.
Context {A : Type}.

Definition len (l : list A) : Z := Z.of_nat (length l).

(** [l[i]] for an arbitrary Python index: a negative index counts from
    the end, anything out of range raises [IndexError]. *)
Definition norm_index (l : list A) (i : Z) : option nat :=
  let j := if i <? 0 then i + len l else i in
  if (0 <=? j) && (j <? len l) then Some (Z.to_nat j) else None.

Definition getitem (l : list A) (i : Z) : result A :=
  match norm_index l i with
  | Some n => match l !! n with Some x => Ok x | None => Raise IndexError end
  | None => Raise IndexError
  end.

(** [l[i] = x] *)
Definition setitem (l : list A) (i : Z) (x : A) : result (list A) :=
  match norm_index l i with
  | Some n => Ok (<[n:=x]> l)
  | None => Raise IndexError
  end.

(** [l[lo:hi]] for non-negative bounds: slicing never raises, it clips. *)
Definition slice (l : list A) (lo hi : nat) : list A :=
  take (hi - lo) (drop lo l).

(** [range(n)] *)
Definition range (n : Z) : list Z := Z.of_nat <$> seq 0 (Z.to_nat n).

(** [for x in xs: s = body(x, s)], stopping at the first exception. *)
Fixpoint for_each {S X : Type} (xs : list X) (body : X -> S -> result S)
    (s : S) : result S :=
  match xs with
  | [] => Ok s
  | x :: xs' => s' ← body x s; for_each xs' body s'
  end.
End PyList.

(** ** The delta loop shared by [GetCPUDelta] and [GetIODelta]

<<
    for i in range(len(first_sample)):
      second_sample[i] -= first_sample[i]
    return second_sample
>>
    The augmented assignment first loads [second_sample[i]], then
    [first_sample[i]], subtracts and stores the difference back. *)

Section Delta.
Context {A : Type} (sub : A -> A -> A).

Definition isub_at (first_sample : list A) (i : Z) (second_sample : list A)
    : result (list A) :=
  x ← getitem second_sample i;
  y ← getitem first_sample i;
  setitem second_sample i (sub x y).

Definition delta_loop (first_sample second_sample : list A) : result (list A) :=
  for_each (range (len first_sample)) (isub_at first_sample) second_sample.
End Delta.

(** ** Python floats

    A Python [float] is a C double: IEEE 754 binary64, round to nearest,
    ties to even.  Arithmetic on floats never raises except division by
    zero; converting an integer too large for a double raises
    [OverflowError]. *)

Definition float : Set := spec_float.

Definition prec : Z := 53.
Definition emax : Z := 1024.

Definition fmul : float -> float -> float := SFmul prec emax.
Definition fdiv : float -> float -> float := SFdiv prec emax.
Definition fsub : float -> float -> float := SFsub prec emax.

Definition is_zero (f : float) : bool :=
  match f with
  | S754_zero _ => true
  | _ => false
  end.

(** The double nearest to an integer (infinite when out of range). *)
Definition Z2F (z : Z) : float := binary_normalize prec emax z 0 false.

(** Implicit coercion of an [int]/[long] operand to [float]. *)
Definition float_of_int (z : Z) : result float :=
  match Z2F z with
  | S754_infinity _ => Raise OverflowError
  | f => Ok f
  end.

(** [a / b] on floats. *)
Definition float_div (a b : float) : result float :=
  if is_zero b then Raise ZeroDivisionError else Ok (fdiv a b).

(** Mixed-mode arithmetic: the integer operand is coerced first. *)
Definition int_mul_float (n : Z) (x : float) : result float :=
  fn ← float_of_int n; Ok (fmul fn x).

Definition float_mul_int (x : float) (n : Z) : result float :=
  fn ← float_of_int n; Ok (fmul x fn).

Definition float_div_int (x : float) (n : Z) : result float :=
  fn ← float_of_int n; float_div x fn.

Definition int_div_float (n : Z) (x : float) : result float :=
  fn ← float_of_int n; float_div fn x.

Definition int_sub_float (n : Z) (x : float) : result float :=
  fn ← float_of_int n; Ok (fsub fn x).

(** The exact rational value of a finite float, for stating bounds. *)
Definition F2Q (f : float) : option Q :=
  match f with
  | S754_zero _ => Some 0%Q
  | S754_finite s m e =>
      let v := match e with
               | Zneg p => Qmake (Zpos m) (2 ^ p)
               | _ => inject_Z (Zpos m * 2 ^ e)
               end in
      Some (if s then Qopp v else v)
  | _ => None
  end.

(** [sum(l)] on a list of integers. *)
Definition sum (l : list Z) : Z := foldl Z.add 0 l.

(** ** [GetCPUStats]: the percentage derived from a CPU delta

<<
    cpu_percentage = 100 - (cpu_delta[len(cpu_delta) - 1] * 100.00 / sum(
        cpu_delta))
>> *)

Definition cpu_percentage (cpu_delta : list Z) : result float :=
  idle ← getitem cpu_delta (len cpu_delta - 1);
  scaled ← int_mul_float idle (Z2F 100);
  ratio ← float_div_int scaled (sum cpu_delta);
  int_sub_float 100 ratio.

(** ** Python strings

    Bytes are [ascii], a [str] is a [string].  Whitespace is what C's
    [isspace] accepts in the default locale: tab, line feed, vertical tab,
    form feed, carriage return and space. *)

Definition LF : ascii := "010"%char.

Definition nl : string := String LF EmptyString.

Definition py_isspace (c : ascii) : bool :=
  let n := N_of_ascii c in
  ((9 <=? n) && (n <=? 13) || (n =? 32))%N.

Definition is_digit (c : ascii) : bool :=
  let n := N_of_ascii c in ((48 <=? n) && (n <=? 57))%N.

Definition digit_val (c : ascii) : Z := Z.of_N (N_of_ascii c) - 48.

Definition lower (c : ascii) : ascii :=
  let n := N_of_ascii c in
  if ((65 <=? n) && (n <=? 90))%N then ascii_of_N (n + 32) else c.

Fixpoint lower_str (s : string) : string :=
  match s with
  | EmptyString => EmptyString
  | String c s' => String (lower c) (lower_str s')
  end.

(** [f.readline()] on a freshly opened file: everything up to and
    including the first line feed. *)
Fixpoint readline (text : string) : string :=
  match text with
  | EmptyString => EmptyString
  | String c rest =>
      if Ascii.eqb c LF then String c EmptyString else String c (readline rest)
  end.

(** [for line in f]: the lines of the file, each with its line feed; a
    last line without line feed is kept as it is. *)
Fixpoint lines (text : string) : list string :=
  match text with
  | EmptyString => []
  | String c rest =>
      if Ascii.eqb c LF then String c EmptyString :: lines rest
      else match lines rest with
           | l :: ls => String c l :: ls
           | [] => [String c EmptyString]
           end
  end.

(** [s.split(sep)] for a one-character separator: every occurrence of
    the separator cuts, so adjacent separators give empty tokens and the
    result is never empty. *)
Fixpoint split_on (sep : ascii) (s : string) : list string :=
  match s with
  | EmptyString => [EmptyString]
  | String c rest =>
      if Ascii.eqb c sep then EmptyString :: split_on sep rest
      else match split_on sep rest with
           | t :: ts => String c t :: ts
           | [] => [String c EmptyString]
           end
  end.

(** [s.split()]: cut at runs of whitespace, no empty tokens. *)
Fixpoint split_ws (s : string) : list string :=
  match s with
  | EmptyString => []
  | String c rest =>
      if py_isspace c then split_ws rest
      else match rest with
           | EmptyString => [String c EmptyString]
           | String c' _ =>
               if py_isspace c' then String c EmptyString :: split_ws rest
               else match split_ws rest with
                    | t :: ts => String c t :: ts
                    | [] => [String c EmptyString]
                    end
           end
  end.

(** [c in s] for a character. *)
Fixpoint occurs (c : ascii) (s : string) : bool :=
  match s with
  | EmptyString => false
  | String c' rest => Ascii.eqb c' c || occurs c rest
  end.

Fixpoint lstrip (s : string) : string :=
  match s with
  | EmptyString => EmptyString
  | String c rest => if py_isspace c then lstrip rest else s
  end.

Definition rstrip (s : string) : string := String.rev (lstrip (String.rev s)).

Definition strip (s : string) : string := rstrip (lstrip s).

(** Leading sign of a numeric literal: [(negative, rest)]. *)
Definition take_sign (s : string) : bool * string :=
  match s with
  | String "-" rest => (true, rest)
  | String "+" rest => (false, rest)
  | _ => (false, s)
  end.

(** Leading decimal digits: the number read so far, how many digits
    were consumed, and what follows them. *)
Fixpoint take_digits (s : string) (acc : Z) (count : Z) : Z * Z * string :=
  match s with
  | String c rest =>
      if is_digit c then take_digits rest (10 * acc + digit_val c) (count + 1)
      else (acc, count, s)
  | EmptyString => (acc, count, s)
  end.

(** [int(s)] in base 10: optional surrounding whitespace, an optional
    sign, one or more decimal digits; anything else is a [ValueError].
    The result has arbitrary precision ([int] or [long]).  (Old
    interpreters also accept blanks between the sign and the digits;
    nothing below depends on such literals.) *)
Definition py_int (s : string) : result Z :=
  let '(neg, body) := take_sign (strip s) in
  match take_digits body 0 0 with
  | (n, count, EmptyString) =>
      if 0 <? count then Ok (if neg then - n else n) else Raise ValueError
  | _ => Raise ValueError
  end.

(** [float(s)]: optional surrounding whitespace, an optional sign, then
    [inf], [infinity] or [nan] in any letter case, or a decimal literal
    (digits with an optional point and an optional exponent).  The
    value is rounded correctly; a literal that is too large gives an
    infinity, without error. *)

Definition float_of_decimal (neg : bool) (mant e10 : Z) : float :=
  match mant with
  | Zpos m =>
      match e10 with
      | Zneg k =>
          let '(q, e, l) :=
            SFdiv_core_binary prec emax (Zpos m) 0 (10 ^ Zpos k) 0 in
          binary_round_aux prec emax neg q e l
      | _ => binary_normalize prec emax
               (if neg then - (mant * 10 ^ e10) else mant * 10 ^ e10) 0 neg
      end
  | _ => S754_zero neg
  end.

(** The exponent part of a decimal literal: empty, or [e]/[E], an
    optional sign and at least one digit, up to the end. *)
Definition take_exponent (s : string) : option Z :=
  match s with
  | EmptyString => Some 0
  | String c rest =>
      if Ascii.eqb (lower c) "e" then
        let '(neg, body) := take_sign rest in
        match take_digits body 0 0 with
        | (n, count, EmptyString) =>
            if 0 <? count then Some (if neg then - n else n) else None
        | _ => None
        end
      else None
  end.

Definition py_float (s : string) : result float :=
  let '(neg, body) := take_sign (strip s) in
  let word := lower_str body in
  if String.eqb word "inf" || String.eqb word "infinity" then
    Ok (S754_infinity neg)
  else if String.eqb word "nan" then Ok S754_nan
  else
    let '(ip, n1, r1) := take_digits body 0 0 in
    let '(mant, n2, r2) :=
      match r1 with
      | String "." frac => take_digits frac ip 0
      | _ => (ip, 0, r1)
      end in
    if 0 <? n1 + n2 then
      match take_exponent r2 with
      | Some ex => Ok (float_of_decimal neg mant (ex - n2))
      | None => Raise ValueError
      end
    else Raise ValueError.

(** ** Configuration: the class attributes of [ResourceMonitor] *)

Definition SAMPLE_INTERVAL : Z := 2.
Definition RUN_TIME : Z := 60.
Definition DISKS_TO_MONITOR : list string := ["sda"%string].
Definition CPU_DATA_FILE : string := "/proc/stat".
Definition IO_DATA_FILE : string := "/proc/diskstats".

(** ** [GetCPUData]: the first line of the CPU file

<<
    cpu_usage = proc_cpu_data.readline().split(' ')[2:6]
    for i in range(len(cpu_usage)):
      cpu_usage[i] = int(cpu_usage[i])
>> *)

Definition cpu_tokens (text : string) : list string :=
  slice (split_on " " (readline text)) 2 6.

Definition cpu_usage (text : string) : result (list Z) :=
  mapM py_int (cpu_tokens text).

(** ** [CalculateIOBandwidth] *)

Definition CalculateIOBandwidth (io_fields : list string) : result (list float) :=
  sectors_read ← getitem io_fields 5;
  reading_milliseconds ← getitem io_fields 6;
  sectors_wrote ← getitem io_fields 9;
  writing_milliseconds ← getitem io_fields 10;
  kb_sectors_read ←
    (f ← py_float sectors_read; x ← float_mul_int f 512; float_div_int x 128);
  kb_sectors_wrote ←
    (f ← py_float sectors_wrote; x ← float_mul_int f 512; float_div_int x 128);
  reading_seconds ← (f ← py_float reading_milliseconds; float_div_int f 1000);
  writing_seconds ← (f ← py_float writing_milliseconds; float_div_int f 1000);
  read_rate ← (inv ← int_div_float 1 reading_seconds; Ok (fmul inv kb_sectors_read));
  write_rate ← (inv ← int_div_float 1 writing_seconds; Ok (fmul inv kb_sectors_wrote));
  Ok [read_rate; write_rate].

(** ** [GetIOData]: the scan of the disk file

<<
    for line in proc_io_data:
      io_fields = line.split()
      if io_fields[2] not in self.DISKS_TO_MONITOR:
        continue
      io_bandwidth = self.CalculateIOBandwidth(io_fields)
    return io_bandwidth
>>
    The local [io_bandwidth] is unbound until a line matches; returning
    it unbound raises [UnboundLocalError]. *)

Definition scan_line (disks : list string) (line : string)
    (io_bandwidth : option (list float)) : result (option (list float)) :=
  let io_fields := split_ws line in
  name ← getitem io_fields 2;
  if bool_decide (name ∈ disks) then
    bw ← CalculateIOBandwidth io_fields; Ok (Some bw)
  else Ok io_bandwidth.

(** A line belongs to a monitored disk when its field 2 exists and is
    one of the names. *)
Definition monitored (disks : list string) (line : string) : Prop :=
  exists name, split_ws line !! 2%nat = Some name /\ name ∈ disks.

(** A line is too short for the scan when it has no field 2. *)
Definition short_line (line : string) : Prop := (length (split_ws line) < 3)%nat.

#[global] Instance monitored_dec disks line : Decision (monitored disks line).
Proof.
  unfold monitored. destruct (split_ws line !! 2%nat) as [name|] eqn:Hname.
  - destruct (decide (name ∈ disks)) as [Hin|Hnot].
    + left. exists name. split; [reflexivity | exact Hin].
    + right. intros (name' & Heq & Hin). congruence.
  - right. intros (name' & Heq & _). discriminate.
Defined.

#[global] Instance short_line_dec line : Decision (short_line line).
Proof. unfold short_line. apply _. Defined.

Definition return_local {A} (v : option A) : result A :=
  match v with
  | Some a => Ok a
  | None => Raise UnboundLocalError
  end.

Definition io_bandwidth_of (disks : list string) (text : string)
    : result (list float) :=
  v ← for_each (lines text) (scan_line disks) None; return_local v.

(** ** The methods of [ResourceMonitor]

    The files under /proc change with time: [proc path t] is what a read
    of [path] returns at clock [t] (seconds).  A method is a computation
    over the clock that may raise; [time.sleep] advances the clock. *)

Definition io (A : Type) : Type := Z -> result (A * Z).

#[global] Instance io_ret : MRet io := fun A a t => Ok (a, t).
#[global] Instance io_bind : MBind io := fun A B f m t =>
  match m t with
  | Ok (a, t') => f a t'
  | Raise e => Raise e
  end.

Definition lift {A} (r : result A) : io A := fun t =>
  match r with
  | Ok a => Ok (a, t)
  | Raise e => Raise e
  end.

Definition sleep (seconds : Z) : io unit := fun t => Ok (tt, t + seconds).

Section ResourceMonitor.
Variable proc : string -> Z -> string.

Definition read_file (path : string) : io string := fun t => Ok (proc path t, t).

Definition GetCPUData : io (list Z) :=
  text ← read_file CPU_DATA_FILE; lift (cpu_usage text).

Definition GetCPUDelta (first_sample : list Z) : io (list Z) :=
  _ ← sleep SAMPLE_INTERVAL;
  second_sample ← GetCPUData;
  lift (delta_loop Z.sub first_sample second_sample).

Definition GetCPUStats : io float :=
  first_sample ← GetCPUData;
  cpu_delta ← GetCPUDelta first_sample;
  lift (cpu_percentage cpu_delta).

Definition GetIOData : io (list float) :=
  text ← read_file IO_DATA_FILE; lift (io_bandwidth_of DISKS_TO_MONITOR text).

Definition GetIODelta (first_sample : list float) : io (list float) :=
  _ ← sleep SAMPLE_INTERVAL;
  second_sample ← GetIOData;
  lift (delta_loop fsub first_sample second_sample).

Definition GetIOReadStats : io (float * float) :=
  first_sample ← GetIOData;
  io_delta ← GetIODelta first_sample;
  ior ← lift (getitem io_delta 0);
  iow ← lift (getitem io_delta 1);
  mret (ior, iow).

Definition GetStatistics : io (float * float * float) :=
  cpu ← GetCPUStats;
  io_rates ← GetIOReadStats;
  mret (cpu, io_rates.1, io_rates.2).
End ResourceMonitor.

(** ** The spec's wording, for comparison with the code

    [io_rate_spec] is the per-snapshot rate as the spec words it:
    kilobytes divided by seconds.  [rate_of_counter_deltas] is the other
    order the spec mentions for the I/O numbers: difference the raw
    counters of two snapshots first, then take one rate.
    [ReadCPUSnapshot_tokens] is the token selection as the spec words it:
    whitespace-separated tokens 2 to 5 of the first line. *)

Definition io_rate_spec (sectors ms : float) : result float :=
  kb ← (x ← float_mul_int sectors 512; float_div_int x 128);
  seconds ← float_div_int ms 1000;
  float_div kb seconds.

Definition rate_of_counter_deltas (sectors1 ms1 sectors2 ms2 : float)
    : result float :=
  io_rate_spec (fsub sectors2 sectors1) (fsub ms2 ms1).

Definition ReadCPUSnapshot_tokens (text : string) : list string :=
  slice (split_ws (readline text)) 2 6.

(** ** Sample inputs *)

(** A row of /proc/diskstats: major, minor, name, then eleven counters
    of which the sectors read, the milliseconds spent reading, the
    sectors written and the milliseconds spent writing are fields 5, 6,
    9 and 10. *)
Definition diskstats_row (name sectors_read ms_read sectors_written ms_write
    : string) : string :=
  ("   8       0 " +:+ name +:+ " 1200 30 " +:+ sectors_read +:+ " " +:+ ms_read
   +:+ " 700 15 " +:+ sectors_written +:+ " " +:+ ms_write +:+ " 0 2500 3300"
   +:+ nl)%string.

(** The first row of /proc/stat: the label [cpu], two spaces, then the
    counters. *)
Definition stat_row (user nice system idle : string) : string :=
  ("cpu  " +:+ user +:+ " " +:+ nice +:+ " " +:+ system +:+ " " +:+ idle
   +:+ " 50 0 7 0 0 0" +:+ nl +:+ "cpu0 1 2 3 4 5 6 7 0 0 0" +:+ nl)%string.

(** A machine whose counters change once, at clock 2. *)
Definition sample_proc (path : string) (t : Z) : string :=
  if String.eqb path CPU_DATA_FILE then
    if t <? 2 then stat_row "100" "0" "0" "300" else stat_row "110" "0" "0" "320"
  else
    if t <? 2 then diskstats_row "sda" "256" "2000" "128" "1000"
    else diskstats_row "sda" "512" "3000" "256" "2000".

(** Finite floats, the zeros included. *)
Definition is_finite (f : float) : bool :=
  match f with
  | S754_zero _ | S754_finite _ _ _ => true
  | _ => false
  end.

(** ** The layout of the kernel's tables

    The kernel prints counters as unsigned decimal numbers.  The first
    line of /proc/stat is the label [cpu], two spaces, and the counters
    separated by single spaces. *)

Fixpoint all_digits (s : string) : bool :=
  match s with
  | EmptyString => true
  | String c rest => is_digit c && all_digits rest
  end.

Definition decimal (n : Z) : string :=
  NilZero.string_of_uint (N.to_uint (Z.to_N n)).

Fixpoint stat_counters (counters : list Z) (rest : string) : string :=
  match counters with
  | [] => nl +:+ rest
  | c :: cs => " " +:+ decimal c +:+ stat_counters cs rest
  end.

Definition stat_text (counters : list Z) (rest : string) : string :=
  "cpu " +:+ stat_counters counters rest.

(** ** Formatting: ['%.Nf' % x]

    The float is printed in fixed notation with [N] digits after the
    point, correctly rounded (ties to even); the point is left out when
    [N] is 0.  Infinities and NaN print as [inf], [-inf] and [nan]. *)

Definition round_half_even (num den : Z) : Z :=
  let q := num / den in
  match 2 * (num mod den) ?= den with
  | Lt => q
  | Gt => q + 1
  | Eq => if Z.even q then q else q + 1
  end.

(** The magnitude [m * 2^e], times [10^digits], rounded to an integer. *)
Definition scaled (digits : nat) (m : positive) (e : Z) : Z :=
  match e with
  | Zneg k => round_half_even (Zpos m * 10 ^ Z.of_nat digits) (2 ^ Zpos k)
  | _ => Zpos m * 2 ^ e * 10 ^ Z.of_nat digits
  end.

Fixpoint zeros (n : nat) : string :=
  match n with
  | O => EmptyString
  | S n' => String "0" (zeros n')
  end.

Definition fixed_point (digits : nat) (n : Z) : string :=
  let ds := decimal n in
  let ds := zeros (S digits - String.length ds) +:+ ds in
  let k := (String.length ds - digits)%nat in
  match digits with
  | O => ds
  | _ => substring 0 k ds +:+ "." +:+ substring k digits ds
  end.

Definition format_f (digits : nat) (x : float) : string :=
  match x with
  | S754_nan => "nan"
  | S754_infinity s => if s then "-inf" else "inf"
  | S754_zero s => (if s then "-" else EmptyString) +:+ fixed_point digits 0
  | S754_finite s m e =>
      (if s then "-" else EmptyString) +:+ fixed_point digits (scaled digits m e)
  end.

(** ** [Start], [Stop] and [Main]: the run

<<
    start_time = int('%.0f' % time.time())
    time_delta = 0
    while time_delta <= self.RUN_TIME:
      cpu, ior, iow = self.GetStatistics()
      print 'CPU %.2f%% IO rkbps %.3f IO wkbps %.3f' %  (cpu, ior, iow)
      time.sleep(2)
      time_delta = int('%.0f' % time.time()) - start_time
    self.Stop()
>>
    The clock counts whole seconds and only the sleeps take time.
    Standard output is the list of the lines printed.  The run ends
    either in [exit()], which leaves with status 0, or in an exception
    that nothing catches. *)

Inductive outcome : Type :=
  | Exited (status : Z) (clock : Z) (stdout : list string)
  | Uncaught (e : exn) (stdout : list string).

Definition exit_status (o : outcome) : Z :=
  match o with
  | Exited status _ _ => status
  | Uncaught _ _ => 1
  end.

(** [time.time()] *)
Definition time_time (t : Z) : float := Z2F t.

(** [int('%.0f' % time.time())] *)
Definition timestamp (t : Z) : result Z := py_int (format_f 0 (time_time t)).

Definition status_line (cpu ior iow : float) : string :=
  "CPU " +:+ format_f 2 cpu +:+ "% IO rkbps " +:+ format_f 3 ior
  +:+ " IO wkbps " +:+ format_f 3 iow.

Definition Stop (t : Z) (stdout : list string) : outcome := Exited 0 t stdout.

Section Run.
Variable proc : string -> Z -> string.

(** The [while] loop, with [fuel] bounding the number of times its
    condition is tested. *)
Fixpoint Start_loop (fuel : nat) (start_time time_delta t : Z)
    (stdout : list string) : option outcome :=
  match fuel with
  | O => None
  | S fuel' =>
      if time_delta <=? RUN_TIME then
        match GetStatistics proc t with
        | Raise e => Some (Uncaught e stdout)
        | Ok (cpu, ior, iow, t1) =>
            let stdout1 := stdout ++ [status_line cpu ior iow] in
            let t2 := t1 + 2 in
            match timestamp t2 with
            | Raise e => Some (Uncaught e stdout1)
            | Ok now => Start_loop fuel' start_time (now - start_time) t2 stdout1
            end
        end
      else Some (Stop t stdout)
  end.

Definition Start (fuel : nat) (t : Z) : option outcome :=
  match timestamp t with
  | Raise e => Some (Uncaught e [])
  | Ok start_time => Start_loop fuel start_time 0 t []
  end.

(** [Main] builds a [ResourceMonitor], whose initializer calls [Start]. *)
Definition Main (fuel : nat) (t : Z) : option outcome := Start fuel t.

(** The line that the tick number [k] of a run started at [t] prints. *)
Definition tick_line (t : Z) (k : nat) : result string :=
  match GetStatistics proc (t + 6 * Z.of_nat k) with
  | Ok (cpu, ior, iow, _) => Ok (status_line cpu ior iow)
  | Raise e => Raise e
  end.
End Run.

(** A machine whose counters move at every second: the CPU is busy a
    quarter of the time and the disk reads and writes at a steady
    pace. *)
Definition moving_proc (path : string) (t : Z) : string :=
  if String.eqb path CPU_DATA_FILE then
    stat_text [100 + t; 0; 0; 300 + 3 * t; 50; 0; 7] "cpu0 1 2 3 4 5 6 7"
  else
    diskstats_row "sda" (decimal (256 + 64 * t)) (decimal (2000 + 5 * t))
      (decimal (128 + 8 * t)) (decimal (1000 + t)).

(** The line that tick [k] of a run of [proc] started at [t] prints, or
    the empty line when the tick fails. *)
Definition printed (proc : string -> Z -> string) (t : Z) (k : nat) : string :=
  match tick_line proc t k with
  | Ok line => line
  | Raise _ => EmptyString
  end.

(** A row of /proc/diskstats is a line of fields separated by blanks;
    the table is the rows one after the other.  [print_row] puts one
    blank before every field, which is all that [split] needs. *)

Fixpoint has_space (s : string) : bool :=
  match s with
  | EmptyString => false
  | String c rest => py_isspace c || has_space rest
  end.

Definition field_ok (tok : string) : Prop :=
  tok <> EmptyString /\ has_space tok = false.

Fixpoint print_row (fields : list string) : string :=
  match fields with
  | [] => nl
  | tok :: toks => " " +:+ tok +:+ print_row toks
  end.

Fixpoint print_table (rows : list (list string)) : string :=
  match rows with
  | [] => EmptyString
  | r :: rs => print_row r +:+ print_table rs
  end.

(** * Part II: lemmas and theorems *)

Example delta_loop_ex1 :
  delta_loop Z.sub [100; 0; 0; 300] [110; 0; 0; 320] = Ok [10; 0; 0; 20].
Proof. reflexivity. Qed.

Example delta_loop_ex2 : delta_loop Z.sub [1] [5; 7] = Ok [4; 7].
Proof. reflexivity. Qed.

Example delta_loop_ex3 : delta_loop Z.sub [1; 2] [5] = Raise IndexError.
Proof. reflexivity. Qed.

(** ** Facts about Python list indexing *)

Section PyListFacts.
Context {A : Type}.
Implicit Types l : list A.

Lemma getitem_lookup l (n : nat) x :
  l !! n = Some x -> getitem l (Z.of_nat n) = Ok x.
Proof.
  intros Hx. pose proof (lookup_lt_Some _ _ _ Hx) as Hlt.
  unfold getitem, norm_index, len.
  replace (Z.of_nat n <? 0) with false by lia.
  replace ((0 <=? Z.of_nat n) && (Z.of_nat n <? Z.of_nat (length l)))
    with true by lia.
  rewrite Nat2Z.id, Hx. reflexivity.
Qed.

Lemma getitem_at l (i : Z) x :
  0 <= i -> l !! Z.to_nat i = Some x -> getitem l i = Ok x.
Proof.
  intros Hi Hx. rewrite <- (Z2Nat.id i Hi). now apply getitem_lookup.
Qed.

Lemma getitem_overrun l (n : nat) :
  (length l <= n)%nat -> getitem l (Z.of_nat n) = Raise IndexError.
Proof.
  intros Hge. unfold getitem, norm_index, len.
  replace (Z.of_nat n <? 0) with false by lia.
  replace ((0 <=? Z.of_nat n) && (Z.of_nat n <? Z.of_nat (length l)))
    with false by lia.
  reflexivity.
Qed.

Lemma setitem_inrange l (n : nat) x :
  (n < length l)%nat -> setitem l (Z.of_nat n) x = Ok (<[n:=x]> l).
Proof.
  intros Hlt. unfold setitem, norm_index, len.
  replace (Z.of_nat n <? 0) with false by lia.
  replace ((0 <=? Z.of_nat n) && (Z.of_nat n <? Z.of_nat (length l)))
    with true by lia.
  rewrite Nat2Z.id. reflexivity.
Qed.

(** The last element: [l[len(l) - 1]]. *)
Lemma getitem_last l x : getitem (l ++ [x]) (len (l ++ [x]) - 1) = Ok x.
Proof.
  unfold len. rewrite length_app. simpl.
  replace (Z.of_nat (length l + 1) - 1) with (Z.of_nat (length l)) by lia.
  apply getitem_lookup. rewrite lookup_app_r by lia.
  replace (length l - length l)%nat with 0%nat by lia. reflexivity.
Qed.

End PyListFacts.

(** ** The delta loop, step by step *)

Section DeltaFacts.
Context {A : Type} (sub : A -> A -> A).
Implicit Types a b s : list A.

Lemma isub_at_step a s (k : nat) x y :
  s !! k = Some x -> a !! k = Some y ->
  isub_at sub a (Z.of_nat k) s = Ok (<[k:=sub x y]> s).
Proof.
  intros Hs Ha. unfold isub_at.
  rewrite (getitem_lookup _ _ _ Hs). cbn.
  rewrite (getitem_lookup _ _ _ Ha). cbn.
  apply setitem_inrange. eapply lookup_lt_Some; eauto.
Qed.

Lemma isub_at_overrun a s (k : nat) :
  (length s <= k)%nat -> isub_at sub a (Z.of_nat k) s = Raise IndexError.
Proof.
  intros Hk. unfold isub_at. rewrite (getitem_overrun s k Hk). reflexivity.
Qed.

(** Invariant of the loop over the indices [k, k+m): the list keeps its
    length, the visited cells hold the differences, the others are
    untouched. *)
Lemma for_each_isub_ok a : forall (m k : nat) s,
  (k + m <= length a)%nat -> (k + m <= length s)%nat ->
  exists s', for_each (Z.of_nat <$> seq k m) (isub_at sub a) s = Ok s'
    /\ length s' = length s
    /\ (forall i x y, (k <= i < k + m)%nat ->
          s !! i = Some x -> a !! i = Some y -> s' !! i = Some (sub x y))
    /\ (forall i, ~ (k <= i < k + m)%nat -> s' !! i = s !! i).
Proof.
  induction m as [|m IH]; intros k s Ha Hs.
  - exists s. cbn. repeat split; auto. intros; lia.
  - destruct (lookup_lt_is_Some_2 s k ltac:(lia)) as [x Hx].
    destruct (lookup_lt_is_Some_2 a k ltac:(lia)) as [y Hy].
    cbn [seq fmap list_fmap for_each].
    rewrite (isub_at_step _ _ _ _ _ Hx Hy). cbn [mbind result_bind].
    destruct (IH (S k) (<[k:=sub x y]> s)) as (s' & Hrun & Hlen & Hin & Hout).
    { lia. } { rewrite length_insert. lia. }
    exists s'. split; [exact Hrun|]. split; [now rewrite Hlen, length_insert|].
    split.
    + intros i x' y' Hi Hx' Hy'. destruct (decide (i = k)) as [->|Hne].
      * rewrite Hout by lia. rewrite list_lookup_insert_eq by (eapply lookup_lt_Some; eauto).
        congruence.
      * apply Hin; [lia| |exact Hy']. rewrite list_lookup_insert_ne by auto. exact Hx'.
    + intros i Hi. rewrite Hout by lia. apply list_lookup_insert_ne. lia.
Qed.

(** When the first sample is longer, the load [second_sample[i]] at
    [i = len(second_sample)] raises. *)
Lemma for_each_isub_overrun a : forall (m k : nat) s,
  (k <= length s)%nat -> (length s < k + m)%nat -> (k + m <= length a)%nat ->
  for_each (Z.of_nat <$> seq k m) (isub_at sub a) s = Raise IndexError.
Proof.
  induction m as [|m IH]; intros k s Hk Hs Ha; [lia|].
  cbn [seq fmap list_fmap for_each].
  destruct (decide (k = length s)) as [Heq|Hne].
  - rewrite isub_at_overrun by lia. reflexivity.
  - destruct (lookup_lt_is_Some_2 s k ltac:(lia)) as [x Hx].
    destruct (lookup_lt_is_Some_2 a k ltac:(lia)) as [y Hy].
    rewrite (isub_at_step _ _ _ _ _ Hx Hy). cbn [mbind result_bind].
    apply IH; rewrite ?length_insert; lia.
Qed.

Lemma range_len a : range (len a) = Z.of_nat <$> seq 0 (length a).
Proof. unfold range, len. now rewrite Nat2Z.id. Qed.
End DeltaFacts.

(** ** Rounding a non-zero integer never gives a zero *)

Lemma digits2_pos_size p : digits2_pos p = Pos.size p.
Proof. induction p; simpl; congruence. Qed.

Lemma Zdigits2_log2 m : 0 < m -> Zdigits2 m = Z.log2 m + 1.
Proof.
  destruct m as [|p|p]; try lia. intros _. simpl. rewrite digits2_pos_size.
  destruct p; simpl; lia.
Qed.

Lemma shr_m_shr_1 r : 0 <= shr_m r -> shr_m (shr_1 r) = Z.shiftr (shr_m r) 1.
Proof.
  destruct r as [m b s]. simpl. intros Hm.
  rewrite <- Z.div2_spec.
  destruct m as [|p|p]; [reflexivity| |lia]. destruct p; reflexivity.
Qed.

Lemma shr_m_iter n : forall r, 0 <= shr_m r ->
  shr_m (SpecFloat.iter_pos shr_1 n r) = Z.shiftr (shr_m r) (Zpos n).
Proof.
  induction n as [n IH|n IH|]; intros r Hr; simpl SpecFloat.iter_pos.
  - assert (H1 : 0 <= shr_m (shr_1 r)) by (rewrite shr_m_shr_1 by auto; now apply Z.shiftr_nonneg).
    assert (H2 : 0 <= shr_m (SpecFloat.iter_pos shr_1 n (shr_1 r))) by (rewrite IH by auto; now apply Z.shiftr_nonneg).
    rewrite IH, IH, shr_m_shr_1 by auto.
    rewrite !Z.shiftr_shiftr by lia. f_equal. lia.
  - assert (H2 : 0 <= shr_m (SpecFloat.iter_pos shr_1 n r)) by (rewrite IH by auto; now apply Z.shiftr_nonneg).
    rewrite IH, IH by auto.
    rewrite !Z.shiftr_shiftr by lia. f_equal. lia.
  - now apply shr_m_shr_1.
Qed.

Lemma shr_record_of_loc_m m l : shr_m (shr_record_of_loc m l) = m.
Proof. destruct l as [|[]]; reflexivity. Qed.

Lemma fexp_lt D : emin prec emax < D -> fexp prec emax D < D.
Proof. unfold fexp, emin, prec, emax. lia. Qed.

Lemma shr_fexp_pos m e l :
  0 < m -> emin prec emax < Zdigits2 m + e ->
  0 < shr_m (fst (shr_fexp prec emax m e l))
  /\ Zdigits2 m + e <= Zdigits2 (shr_m (fst (shr_fexp prec emax m e l))) + snd (shr_fexp prec emax m e l).
Proof.
  intros Hm HD. unfold shr_fexp, shr.
  pose proof (fexp_lt _ HD) as Hf.
  destruct (fexp prec emax (Zdigits2 m + e) - e) as [|n|n] eqn:Hn; simpl fst; simpl snd;
    rewrite ?shr_record_of_loc_m; try lia.
  rewrite shr_m_iter by (rewrite shr_record_of_loc_m; lia).
  rewrite shr_record_of_loc_m.
  rewrite Zdigits2_log2 in * by lia.
  assert (Hlog : Zpos n <= Z.log2 m) by lia.
  assert (Hpos : 0 < Z.shiftr m (Zpos n)).
  { pose proof (Z.shiftr_nonneg m (Zpos n)) as Hnn.
    pose proof (Z.shiftr_eq_0_iff m (Zpos n)) as Hz. lia. }
  split; [exact Hpos|].
  rewrite Zdigits2_log2 by exact Hpos.
  rewrite Z.log2_shiftr by lia. lia.
Qed.

Lemma round_nearest_even_ge m l : m <= round_nearest_even m l.
Proof. destruct l as [|[]]; simpl; try lia. destruct (Z.even m); lia. Qed.

Lemma Zdigits2_mono m m' : 0 < m -> m <= m' -> Zdigits2 m <= Zdigits2 m'.
Proof.
  intros Hm Hle. rewrite !Zdigits2_log2 by lia.
  pose proof (Z.log2_le_mono m m' Hle). lia.
Qed.

Lemma binary_round_aux_nonzero s m e l :
  0 < m -> emin prec emax < Zdigits2 m + e ->
  is_zero (binary_round_aux prec emax s m e l) = false.
Proof.
  intros Hm HD. unfold binary_round_aux.
  pose proof (shr_fexp_pos m e l Hm HD) as [Hpos1 HD1].
  destruct (shr_fexp prec emax m e l) as [r1 e1]. simpl fst in *. simpl snd in *.
  set (m2 := round_nearest_even (shr_m r1) (loc_of_shr_record r1)).
  pose proof (round_nearest_even_ge (shr_m r1) (loc_of_shr_record r1)) as Hge.
  fold m2 in Hge.
  pose proof (Zdigits2_mono _ _ Hpos1 Hge) as Hmono.
  pose proof (shr_fexp_pos m2 e1 loc_Exact ltac:(lia) ltac:(lia)) as [Hpos2 _].
  destruct (shr_fexp prec emax m2 e1 loc_Exact) as [r2 e2]. simpl fst in *.
  destruct (shr_m r2) as [|q|q]; try lia.
  destruct (e2 <=? emax - prec); reflexivity.
Qed.

Lemma fexp_ge_emin D : emin prec emax <= fexp prec emax D.
Proof. unfold fexp. lia. Qed.

Lemma Z2F_nonzero z : z <> 0 -> is_zero (Z2F z) = false.
Proof.
  intros Hz. unfold Z2F, binary_normalize.
  assert (Hround : forall s p, is_zero (binary_round prec emax s p 0) = false).
  { intros s p. unfold binary_round, shl_align.
    pose proof (fexp_ge_emin (Z.pos (digits2_pos p) + 0)) as Hf.
    destruct (fexp prec emax (Z.pos (digits2_pos p) + 0) - 0) as [|d|d] eqn:Hd;
      apply binary_round_aux_nonzero; simpl Zdigits2;
      change (emin prec emax) with (-1074) in *; lia. }
  destruct z as [|p|p]; [congruence|apply Hround..].
Qed.

Lemma float_of_int_nonzero z f :
  z <> 0 -> float_of_int z = Ok f -> is_zero f = false.
Proof.
  intros Hz. unfold float_of_int. pose proof (Z2F_nonzero z Hz) as Hnz.
  destruct (Z2F z); intros [= <-]; auto.
Qed.

(** ** Rounding an integer of moderate size never overflows *)

Lemma shr_fexp_exact m e l :
  0 < m -> emin prec emax < Zdigits2 m + e ->
  Zdigits2 (shr_m (fst (shr_fexp prec emax m e l))) + snd (shr_fexp prec emax m e l)
    = Zdigits2 m + e
  /\ snd (shr_fexp prec emax m e l) = Z.max e (fexp prec emax (Zdigits2 m + e)).
Proof.
  intros Hm HD. unfold shr_fexp, shr.
  pose proof (fexp_lt _ HD) as Hf.
  destruct (fexp prec emax (Zdigits2 m + e) - e) as [|n|n] eqn:Hn; simpl fst; simpl snd;
    rewrite ?shr_record_of_loc_m; try lia.
  rewrite shr_m_iter by (rewrite shr_record_of_loc_m; lia).
  rewrite shr_record_of_loc_m.
  rewrite Zdigits2_log2 in * by lia.
  assert (Hpos : 0 < Z.shiftr m (Zpos n)).
  { pose proof (Z.shiftr_nonneg m (Zpos n)) as Hnn.
    pose proof (Z.shiftr_eq_0_iff m (Zpos n)) as Hz. lia. }
  rewrite Zdigits2_log2 by exact Hpos.
  rewrite Z.log2_shiftr by lia. rewrite !(Zdigits2_log2 m Hm). lia.
Qed.

Lemma round_nearest_even_le m l : round_nearest_even m l <= m + 1.
Proof. destruct l as [|[]]; simpl; try lia. destruct (Z.even m); lia. Qed.

Lemma Zdigits2_succ m : 0 < m -> Zdigits2 (m + 1) <= Zdigits2 m + 1.
Proof.
  intros Hm. rewrite !Zdigits2_log2 by lia.
  pose proof (Z.log2_succ_le m). unfold Z.succ in *. lia.
Qed.

Lemma binary_round_aux_finite s m e l :
  0 < m -> emin prec emax < Zdigits2 m + e -> Zdigits2 m + e <= 1023 -> e <= 971 ->
  exists m' e', binary_round_aux prec emax s m e l = S754_finite s m' e'.
Proof.
  intros Hm HD Hmax He. unfold binary_round_aux.
  pose proof (shr_fexp_pos m e l Hm HD) as [Hpos1 _].
  pose proof (shr_fexp_exact m e l Hm HD) as [HD1 He1].
  destruct (shr_fexp prec emax m e l) as [r1 e1]. simpl fst in *. simpl snd in *.
  set (m2 := round_nearest_even (shr_m r1) (loc_of_shr_record r1)).
  pose proof (round_nearest_even_ge (shr_m r1) (loc_of_shr_record r1)) as Hge.
  pose proof (round_nearest_even_le (shr_m r1) (loc_of_shr_record r1)) as Hle.
  fold m2 in Hge, Hle.
  pose proof (Zdigits2_mono _ _ Hpos1 Hge) as Hmono.
  assert (Hup : Zdigits2 m2 <= Zdigits2 (shr_m r1) + 1).
  { etransitivity; [apply (Zdigits2_mono m2 (shr_m r1 + 1)); lia|].
    now apply Zdigits2_succ. }
  pose proof (shr_fexp_pos m2 e1 loc_Exact ltac:(lia) ltac:(lia)) as [Hpos2 _].
  pose proof (shr_fexp_exact m2 e1 loc_Exact ltac:(lia) ltac:(lia)) as [_ He2].
  destruct (shr_fexp prec emax m2 e1 loc_Exact) as [r2 e2]. simpl fst in *. simpl snd in *.
  destruct (shr_m r2) as [|q|q]; try lia.
  replace (e2 <=? emax - prec) with true; [eauto|].
  symmetry. apply Z.leb_le. subst e2 e1.
  unfold fexp, emin, emax, prec in *. lia.
Qed.

Lemma digits2_pos_iter_xO p d :
  Zpos (digits2_pos (Pos.iter xO p d)) = Zpos (digits2_pos p) + Zpos d.
Proof.
  induction d as [|d IH] using Pos.peano_ind.
  - simpl. lia.
  - rewrite Pos.iter_succ. simpl digits2_pos. lia.
Qed.

(** Integers below [2^1023] in magnitude convert without overflow. *)
Lemma float_of_int_fits z :
  Z.abs z < 2 ^ 1023 -> float_of_int z = Ok (Z2F z).
Proof.
  intros Hz. unfold float_of_int.
  assert (Hround : forall s p, Zpos p < 2 ^ 1023 ->
            exists m' e', binary_round prec emax s p 0 = S754_finite s m' e').
  { intros s p Hp. unfold binary_round, shl_align.
    assert (Hd : Zpos (digits2_pos p) <= 1023).
    { change (Zdigits2 (Zpos p) <= 1023). rewrite Zdigits2_log2 by lia.
      pose proof (proj1 (Z.log2_lt_pow2 (Zpos p) 1023 ltac:(lia)) Hp). lia. }
    pose proof (fexp_ge_emin (Z.pos (digits2_pos p) + 0)) as Hf.
    destruct (fexp prec emax (Z.pos (digits2_pos p) + 0) - 0) as [|d|d] eqn:Hd';
      apply binary_round_aux_finite; simpl Zdigits2;
      rewrite ?digits2_pos_iter_xO;
      change (emin prec emax) with (-1074) in *;
      unfold fexp, emin, prec, emax in *; lia. }
  unfold Z2F, binary_normalize.
  destruct z as [|p|p]; [reflexivity| |].
  - destruct (Hround false p ltac:(lia)) as (m' & e' & ->). reflexivity.
  - destruct (Hround true p ltac:(lia)) as (m' & e' & ->). reflexivity.
Qed.

(** ** The delta operation (claims C4, C6, C10) *)

Section DeltaSpec.
Context {A : Type} (sub : A -> A -> A).
Implicit Types a b : list A.

(** Whenever the first sample is not longer than the second, the loop
    succeeds: it differences the common prefix and leaves the rest. *)
Lemma delta_loop_prefix a b :
  (length a <= length b)%nat ->
  exists r, delta_loop sub a b = Ok r
    /\ length r = length b
    /\ (forall i x y, a !! i = Some x -> b !! i = Some y ->
          r !! i = Some (sub y x))
    /\ (forall i, (length a <= i)%nat -> r !! i = b !! i).
Proof.
  intros Hle. unfold delta_loop. rewrite range_len.
  destruct (for_each_isub_ok sub a (length a) 0 b) as (r & Hrun & Hlen & Hin & Hout);
    [lia | lia |].
  exists r. split; [exact Hrun|]. split; [exact Hlen|]. split.
  - intros i x y Ha Hb. apply (Hin i y x); auto.
    pose proof (lookup_lt_Some _ _ _ Ha). lia.
  - intros i Hi. apply Hout. lia.
Qed.

Lemma delta_loop_overrun a b :
  (length b < length a)%nat -> delta_loop sub a b = Raise IndexError.
Proof.
  intros Hlt. unfold delta_loop. rewrite range_len.
  apply for_each_isub_overrun; lia.
Qed.
End DeltaSpec.

(** Running a method: unfold the binds of both monads. *)
Ltac run_io :=
  unfold read_file, sleep, lift;
  repeat (unfold mbind, mret, io_bind, io_ret, result_bind, result_ret; cbv beta iota).

(** The two methods run the same loop on the sample read two seconds
    later. *)
Lemma GetCPUDelta_run proc first_sample t :
  GetCPUDelta proc first_sample t =
    (second_sample ← cpu_usage (proc CPU_DATA_FILE (t + SAMPLE_INTERVAL));
     r ← delta_loop Z.sub first_sample second_sample;
     Ok (r, t + SAMPLE_INTERVAL)).
Proof.
  unfold GetCPUDelta, GetCPUData. run_io.
  destruct (cpu_usage _) as [b|e]; run_io; [|reflexivity].
  destruct (delta_loop _ _ _); reflexivity.
Qed.

Lemma GetIODelta_run proc first_sample t :
  GetIODelta proc first_sample t =
    (second_sample ←
       io_bandwidth_of DISKS_TO_MONITOR (proc IO_DATA_FILE (t + SAMPLE_INTERVAL));
     r ← delta_loop fsub first_sample second_sample;
     Ok (r, t + SAMPLE_INTERVAL)).
Proof.
  unfold GetIODelta, GetIOData. run_io.
  destruct (io_bandwidth_of _ _) as [b|e]; run_io; [|reflexivity].
  destruct (delta_loop _ _ _); reflexivity.
Qed.

(** What the two methods return, given the sample they read after the
    sleep: the loop's result on the two samples, at the later clock. *)
Lemma GetCPUDelta_prefix proc t (a b : list Z) :
  cpu_usage (proc CPU_DATA_FILE (t + SAMPLE_INTERVAL)) = Ok b ->
  (length a <= length b)%nat ->
  exists r, GetCPUDelta proc a t = Ok (r, t + SAMPLE_INTERVAL)
    /\ length r = length b
    /\ (forall i x y, a !! i = Some x -> b !! i = Some y ->
          r !! i = Some (y - x))
    /\ (forall i, (length a <= i)%nat -> r !! i = b !! i).
Proof.
  intros Hb Hle. rewrite GetCPUDelta_run, Hb. cbn [mbind result_bind].
  destruct (delta_loop_prefix Z.sub a b Hle) as (r & -> & H).
  exists r. split; [reflexivity | exact H].
Qed.

Lemma GetIODelta_prefix proc t (a b : list float) :
  io_bandwidth_of DISKS_TO_MONITOR (proc IO_DATA_FILE (t + SAMPLE_INTERVAL))
    = Ok b ->
  (length a <= length b)%nat ->
  exists r, GetIODelta proc a t = Ok (r, t + SAMPLE_INTERVAL)
    /\ length r = length b
    /\ (forall i x y, a !! i = Some x -> b !! i = Some y ->
          r !! i = Some (fsub y x))
    /\ (forall i, (length a <= i)%nat -> r !! i = b !! i).
Proof.
  intros Hb Hle. rewrite GetIODelta_run, Hb. cbn [mbind result_bind].
  destruct (delta_loop_prefix fsub a b Hle) as (r & -> & H).
  exists r. split; [reflexivity | exact H].
Qed.

Lemma GetCPUDelta_overrun proc t (a b : list Z) :
  cpu_usage (proc CPU_DATA_FILE (t + SAMPLE_INTERVAL)) = Ok b ->
  (length b < length a)%nat ->
  GetCPUDelta proc a t = Raise IndexError.
Proof.
  intros Hb Hlt. rewrite GetCPUDelta_run, Hb. cbn [mbind result_bind].
  now rewrite delta_loop_overrun.
Qed.

Lemma GetIODelta_overrun proc t (a b : list float) :
  io_bandwidth_of DISKS_TO_MONITOR (proc IO_DATA_FILE (t + SAMPLE_INTERVAL))
    = Ok b ->
  (length b < length a)%nat ->
  GetIODelta proc a t = Raise IndexError.
Proof.
  intros Hb Hlt. rewrite GetIODelta_run, Hb. cbn [mbind result_bind].
  now rewrite delta_loop_overrun.
Qed.

(** C4.  For integer vectors [a] (first sample) and [b] (second sample)
    of equal length N the delta operation returns a vector of length N
    whose cell [i] is [b[i] - a[i]], an exact integer difference: nothing
    is clamped, a negative difference is returned as it is.  This holds
    of the loop and of [GetCPUDelta], whose second sample is the one it
    reads from the CPU file after the sleep.  [GetIODelta] runs the same
    loop on the rates it reads from the disk file, which are doubles, not
    integers: there cell [i] is the difference of doubles
    [b[i] - a[i]], unclamped as well. *)
Theorem delta_elementwise :
  (forall a b : list Z,
     length a = length b ->
     exists r, delta_loop Z.sub a b = Ok r
       /\ length r = length a
       /\ forall i x y, a !! i = Some x -> b !! i = Some y ->
            r !! i = Some (y - x))
  /\ (forall proc t (a b : list Z),
        length a = length b ->
        cpu_usage (proc CPU_DATA_FILE (t + SAMPLE_INTERVAL)) = Ok b ->
        exists r, GetCPUDelta proc a t = Ok (r, t + SAMPLE_INTERVAL)
          /\ length r = length a
          /\ forall i x y, a !! i = Some x -> b !! i = Some y ->
               r !! i = Some (y - x))
  /\ (forall proc t (a b : list float),
        length a = length b ->
        io_bandwidth_of DISKS_TO_MONITOR
          (proc IO_DATA_FILE (t + SAMPLE_INTERVAL)) = Ok b ->
        exists r, GetIODelta proc a t = Ok (r, t + SAMPLE_INTERVAL)
          /\ length r = length a
          /\ forall i x y, a !! i = Some x -> b !! i = Some y ->
               r !! i = Some (fsub y x)).
Proof.
  split; [|split].
  - intros a b Heq.
    destruct (delta_loop_prefix Z.sub a b) as (r & Hrun & Hlen & Hin & _); [lia|].
    exists r. repeat split; [exact Hrun | congruence | exact Hin].
  - intros proc t a b Heq Hb.
    destruct (GetCPUDelta_prefix proc t a b Hb) as (r & Hrun & Hlen & Hin & _);
      [lia|].
    exists r. repeat split; [exact Hrun | congruence | exact Hin].
  - intros proc t a b Heq Hb.
    destruct (GetIODelta_prefix proc t a b Hb) as (r & Hrun & Hlen & Hin & _);
      [lia|].
    exists r. repeat split; [exact Hrun | congruence | exact Hin].
Qed.

Lemma delta_elementwise_witness :
  (exists r, delta_loop Z.sub [5; 1; 7] [3; 4; 7] = Ok r
     /\ length r = length [5; 1; 7]
     /\ forall i x y, [5; 1; 7] !! i = Some x -> [3; 4; 7] !! i = Some y ->
          r !! i = Some (y - x))
  /\ (exists r, GetCPUDelta sample_proc [500; 0; 0; 300] 0
                  = Ok (r, 0 + SAMPLE_INTERVAL)
        /\ length r = length [500; 0; 0; 300]
        /\ forall i x y, [500; 0; 0; 300] !! i = Some x ->
             [110; 0; 0; 320] !! i = Some y -> r !! i = Some (y - x))
  /\ (exists r, GetIODelta sample_proc [Z2F 1000; Z2F 12] 0
                  = Ok (r, 0 + SAMPLE_INTERVAL)
        /\ length r = length [Z2F 1000; Z2F 12]
        /\ forall i x y, [Z2F 1000; Z2F 12] !! i = Some x ->
             [fdiv (Z2F 2048) (Z2F 3); Z2F 512] !! i = Some y -> r !! i = Some (fsub y x)).
Proof.
  split; [|split].
  - apply (proj1 delta_elementwise [5; 1; 7] [3; 4; 7]). reflexivity.
  - apply (proj1 (proj2 delta_elementwise) sample_proc 0
             [500; 0; 0; 300] [110; 0; 0; 320]); reflexivity.
  - apply (proj2 (proj2 delta_elementwise) sample_proc 0
             [Z2F 1000; Z2F 12] [fdiv (Z2F 2048) (Z2F 3); Z2F 512]); reflexivity.
Defined.

Example delta_negative_passes : delta_loop Z.sub [5; 1; 7] [3; 4; 7] = Ok [-2; 3; 0].
Proof. reflexivity. Qed.

(** The method passes a negative difference through as well: a counter
    that went down from 500 to 110 gives -390. *)
Example GetCPUDelta_negative_passes :
  GetCPUDelta sample_proc [500; 0; 0; 300] 0 = Ok ([-390; 0; 0; 20], 2).
Proof. reflexivity. Qed.

(** C10.  When the first sample [a] is shorter than the second sample
    [b], the delta operation raises nothing: the result has the length
    of [b], cell [i] is [b[i] - a[i]] for [i < len(a)] and [b[i]]
    unchanged from there on.  The subtraction is that of the element
    type.  This holds of the loop, for any element type, and of the two
    methods, whose second sample is the one they read after the sleep:
    [GetCPUDelta] on integers and [GetIODelta] on doubles. *)
Theorem delta_shorter_first :
  (forall (A : Type) (sub : A -> A -> A) (a b : list A),
     (length a < length b)%nat ->
     exists r, delta_loop sub a b = Ok r
       /\ length r = length b
       /\ (forall i x y, a !! i = Some x -> b !! i = Some y ->
             r !! i = Some (sub y x))
       /\ (forall i, (length a <= i)%nat -> r !! i = b !! i))
  /\ (forall proc t (a b : list Z),
        (length a < length b)%nat ->
        cpu_usage (proc CPU_DATA_FILE (t + SAMPLE_INTERVAL)) = Ok b ->
        exists r, GetCPUDelta proc a t = Ok (r, t + SAMPLE_INTERVAL)
          /\ length r = length b
          /\ (forall i x y, a !! i = Some x -> b !! i = Some y ->
                r !! i = Some (y - x))
          /\ (forall i, (length a <= i)%nat -> r !! i = b !! i))
  /\ (forall proc t (a b : list float),
        (length a < length b)%nat ->
        io_bandwidth_of DISKS_TO_MONITOR
          (proc IO_DATA_FILE (t + SAMPLE_INTERVAL)) = Ok b ->
        exists r, GetIODelta proc a t = Ok (r, t + SAMPLE_INTERVAL)
          /\ length r = length b
          /\ (forall i x y, a !! i = Some x -> b !! i = Some y ->
                r !! i = Some (fsub y x))
          /\ (forall i, (length a <= i)%nat -> r !! i = b !! i)).
Proof.
  split; [|split].
  - intros A sub a b Hlt. apply delta_loop_prefix. lia.
  - intros proc t a b Hlt Hb. apply GetCPUDelta_prefix; [exact Hb | lia].
  - intros proc t a b Hlt Hb. apply GetIODelta_prefix; [exact Hb | lia].
Qed.

Lemma delta_shorter_first_witness :
  (exists r, delta_loop Z.sub [1] [5; 7] = Ok r
     /\ length r = length [5; 7]
     /\ (forall i x y, [1] !! i = Some x -> [5; 7] !! i = Some y ->
           r !! i = Some (y - x))
     /\ (forall i, (length [1] <= i)%nat -> r !! i = [5; 7] !! i))
  /\ (exists r, GetCPUDelta sample_proc [100; 0] 0 = Ok (r, 0 + SAMPLE_INTERVAL)
        /\ length r = length [110; 0; 0; 320]
        /\ (forall i x y, [100; 0] !! i = Some x ->
              [110; 0; 0; 320] !! i = Some y -> r !! i = Some (y - x))
        /\ (forall i, (length [100; 0] <= i)%nat ->
              r !! i = [110; 0; 0; 320] !! i))
  /\ (exists r, GetIODelta sample_proc [Z2F 12] 0
                  = Ok (r, 0 + SAMPLE_INTERVAL)
        /\ length r = length [fdiv (Z2F 2048) (Z2F 3); Z2F 512]
        /\ (forall i x y, [Z2F 12] !! i = Some x ->
              [fdiv (Z2F 2048) (Z2F 3); Z2F 512] !! i = Some y -> r !! i = Some (fsub y x))
        /\ (forall i, (length [Z2F 12] <= i)%nat ->
              r !! i = [fdiv (Z2F 2048) (Z2F 3); Z2F 512] !! i)).
Proof.
  split; [|split].
  - apply (proj1 delta_shorter_first Z Z.sub [1] [5; 7]). simpl. lia.
  - apply (proj1 (proj2 delta_shorter_first) sample_proc 0
             [100; 0] [110; 0; 0; 320]); [simpl; lia | reflexivity].
  - apply (proj2 (proj2 delta_shorter_first) sample_proc 0
             [Z2F 12] [fdiv (Z2F 2048) (Z2F 3); Z2F 512]); [simpl; lia | reflexivity].
Defined.

(** The methods on a shorter first sample: the cells beyond it are those
    of the second sample. *)
Example GetCPUDelta_shorter_first :
  GetCPUDelta sample_proc [100; 0] 0 = Ok ([10; 0; 0; 320], 2).
Proof. reflexivity. Qed.

(** C6, as stated, fails: samples of different lengths do not always
    make the delta operation fail. *)
Lemma delta_mismatch_counterexample :
  ~ (forall a b : list Z, length a <> length b -> raises (delta_loop Z.sub a b)).
Proof.
  intros H. destruct (H [1] [5; 7]) as [e He]; [discriminate|].
  vm_compute in He. discriminate.
Qed.

(** C6, amended.  The delta operation fails, with an index error, for
    every pair of samples in which the first is longer than the second;
    for every pair in which the first is shorter than the second it does
    not fail, it returns a vector.  This holds of the loop, for any
    element type, and of [GetCPUDelta] and [GetIODelta], where the
    second sample is the one the method reads after the sleep. *)
Theorem delta_longer_first_raises :
  (forall (A : Type) (sub : A -> A -> A) (a b : list A),
     ((length b < length a)%nat -> delta_loop sub a b = Raise IndexError)
     /\ ((length a < length b)%nat -> exists r, delta_loop sub a b = Ok r))
  /\ (forall proc t (a b : list Z),
        cpu_usage (proc CPU_DATA_FILE (t + SAMPLE_INTERVAL)) = Ok b ->
        ((length b < length a)%nat -> GetCPUDelta proc a t = Raise IndexError)
        /\ ((length a < length b)%nat ->
              exists r, GetCPUDelta proc a t = Ok (r, t + SAMPLE_INTERVAL)))
  /\ (forall proc t (a b : list float),
        io_bandwidth_of DISKS_TO_MONITOR
          (proc IO_DATA_FILE (t + SAMPLE_INTERVAL)) = Ok b ->
        ((length b < length a)%nat -> GetIODelta proc a t = Raise IndexError)
        /\ ((length a < length b)%nat ->
              exists r, GetIODelta proc a t = Ok (r, t + SAMPLE_INTERVAL))).
Proof.
  split; [|split].
  - intros A sub a b. split.
    + apply delta_loop_overrun.
    + intros Hlt.
      destruct (delta_loop_prefix sub a b) as (r & Hrun & _); [lia|].
      now exists r.
  - intros proc t a b Hb. split; intros Hlt.
    + now apply (GetCPUDelta_overrun proc t a b).
    + destruct (GetCPUDelta_prefix proc t a b Hb) as (r & Hrun & _); [lia|].
      now exists r.
  - intros proc t a b Hb. split; intros Hlt.
    + now apply (GetIODelta_overrun proc t a b).
    + destruct (GetIODelta_prefix proc t a b Hb) as (r & Hrun & _); [lia|].
      now exists r.
Qed.

Lemma delta_longer_first_raises_witness :
  (delta_loop Z.sub [1; 2] [5] = Raise IndexError
   /\ exists r, delta_loop Z.sub [1] [5; 7] = Ok r)
  /\ (GetCPUDelta sample_proc [1; 2; 3; 4; 5] 0 = Raise IndexError
      /\ exists r, GetCPUDelta sample_proc [100; 0] 0
                     = Ok (r, 0 + SAMPLE_INTERVAL))
  /\ (GetIODelta sample_proc [Z2F 1; Z2F 2; Z2F 3] 0 = Raise IndexError
      /\ exists r, GetIODelta sample_proc [Z2F 12] 0
                     = Ok (r, 0 + SAMPLE_INTERVAL)).
Proof.
  split; [|split]; split.
  - apply (proj1 delta_longer_first_raises Z Z.sub [1; 2] [5]). simpl. lia.
  - apply (proj1 delta_longer_first_raises Z Z.sub [1] [5; 7]). simpl. lia.
  - apply (proj1 (proj2 delta_longer_first_raises) sample_proc 0
             [1; 2; 3; 4; 5] [110; 0; 0; 320]); [reflexivity | simpl; lia].
  - apply (proj1 (proj2 delta_longer_first_raises) sample_proc 0
             [100; 0] [110; 0; 0; 320]); [reflexivity | simpl; lia].
  - apply (proj2 (proj2 delta_longer_first_raises) sample_proc 0
             [Z2F 1; Z2F 2; Z2F 3] [fdiv (Z2F 2048) (Z2F 3); Z2F 512]); [reflexivity | simpl; lia].
  - apply (proj2 (proj2 delta_longer_first_raises) sample_proc 0
             [Z2F 12] [fdiv (Z2F 2048) (Z2F 3); Z2F 512]); [reflexivity | simpl; lia].
Defined.

(** ** The CPU percentage (claims C1, C5) *)

Lemma float_of_int_100 : float_of_int 100 = Ok (Z2F 100).
Proof. reflexivity. Qed.

Lemma float_div_nonzero x y :
  is_zero y = false -> float_div x y = Ok (fdiv x y).
Proof. unfold float_div. intros ->. reflexivity. Qed.

(** The derivation on a delta of any length: its last cell is the idle
    count. *)
Lemma cpu_percentage_eval (l : list Z) (idle : Z) (fi fs : float) :
  sum (l ++ [idle]) <> 0 ->
  float_of_int idle = Ok fi ->
  float_of_int (sum (l ++ [idle])) = Ok fs ->
  cpu_percentage (l ++ [idle])
    = Ok (fsub (Z2F 100) (fdiv (fmul fi (Z2F 100)) fs)).
Proof.
  intros Hsum Hfi Hfs. unfold cpu_percentage. rewrite getitem_last.
  unfold int_mul_float, float_div_int, int_sub_float.
  cbn [mbind result_bind]. rewrite Hfi. cbn [mbind result_bind].
  rewrite Hfs. cbn [mbind result_bind].
  rewrite float_div_nonzero by (eapply float_of_int_nonzero; eauto).
  rewrite float_of_int_100. reflexivity.
Qed.

Lemma cpu_percentage_zero_sum (l : list Z) (idle : Z) (fi : float) :
  sum (l ++ [idle]) = 0 ->
  float_of_int idle = Ok fi ->
  cpu_percentage (l ++ [idle]) = Raise ZeroDivisionError.
Proof.
  intros Hsum Hfi. unfold cpu_percentage. rewrite getitem_last.
  unfold int_mul_float, float_div_int.
  cbn [mbind result_bind]. rewrite Hfi. cbn [mbind result_bind].
  rewrite Hsum. reflexivity.
Qed.

(** An empty delta has no last cell. *)
Example cpu_percentage_empty : cpu_percentage [] = Raise IndexError.
Proof. reflexivity. Qed.

(** C1, as stated, fails: a delta whose idle count is too large for a
    double has a non-zero sum and yet no percentage is returned. *)
Lemma cpu_percentage_counterexample :
  ~ (forall u n s idle : Z, sum [u; n; s; idle] <> 0 ->
       exists r, cpu_percentage [u; n; s; idle] = Ok r).
Proof.
  intros H. destruct (H 1 0 0 (2 ^ 1024)) as [r Hr].
  - vm_compute. discriminate.
  - vm_compute in Hr. discriminate.
Qed.

(** C1, amended.  For every CPU delta [user, nice, system, idle] of four
    integers with a non-zero sum, whose idle count and whose sum both
    convert to a double without overflow (as every integer below 2^1023
    in magnitude does), the derivation returns
    [100 - (idle * 100.0 / sum)] computed in double arithmetic.  For
    [10, 0, 0, 90] that is exactly 10.0; for [10, 0, 0, 20] it is the
    double that the literal 33.33333333333333 denotes (20 * 100.0 / 30
    rounds up to 66.66666666666667, and the subtraction from 100 is
    exact), which lies between 33.33 and 33.34; and the same double is
    the result of [GetCPUStats] when the CPU file reads [100, 0, 0, 300]
    first and [110, 0, 0, 320] two seconds later. *)
Theorem cpu_percentage_formula :
  (forall (u n s idle : Z) (fi fs : float),
     sum [u; n; s; idle] <> 0 ->
     float_of_int idle = Ok fi ->
     float_of_int (sum [u; n; s; idle]) = Ok fs ->
     cpu_percentage [u; n; s; idle]
       = Ok (fsub (Z2F 100) (fdiv (fmul fi (Z2F 100)) fs)))
  /\ (forall u n s idle : Z,
        sum [u; n; s; idle] <> 0 ->
        Z.abs idle < 2 ^ 1023 -> Z.abs (sum [u; n; s; idle]) < 2 ^ 1023 ->
        cpu_percentage [u; n; s; idle]
          = Ok (fsub (Z2F 100)
                  (fdiv (fmul (Z2F idle) (Z2F 100)) (Z2F (sum [u; n; s; idle])))))
  /\ cpu_percentage [10; 0; 0; 90] = Ok (Z2F 10)
  /\ (exists r q, cpu_percentage [10; 0; 0; 20] = Ok r
        /\ py_float "33.33333333333333" = Ok r
        /\ F2Q r = Some q /\ (3333 # 100 < q)%Q /\ (q < 3334 # 100)%Q)
  /\ (exists r q, GetCPUStats sample_proc 0 = Ok (r, SAMPLE_INTERVAL)
        /\ cpu_usage (sample_proc CPU_DATA_FILE 0) = Ok [100; 0; 0; 300]
        /\ cpu_usage (sample_proc CPU_DATA_FILE SAMPLE_INTERVAL)
             = Ok [110; 0; 0; 320]
        /\ py_float "33.33333333333333" = Ok r
        /\ F2Q r = Some q /\ (3333 # 100 < q)%Q /\ (q < 3334 # 100)%Q).
Proof.
  assert (Hgen : forall (u n s idle : Z) (fi fs : float),
            sum [u; n; s; idle] <> 0 ->
            float_of_int idle = Ok fi ->
            float_of_int (sum [u; n; s; idle]) = Ok fs ->
            cpu_percentage [u; n; s; idle]
              = Ok (fsub (Z2F 100) (fdiv (fmul fi (Z2F 100)) fs))).
  { intros u n s idle. exact (cpu_percentage_eval [u; n; s] idle). }
  split; [exact Hgen|]. split; [|split; [|split]].
  - intros u n s idle Hsum Hidle Hbound.
    apply Hgen; [exact Hsum | now apply float_of_int_fits..].
  - vm_compute. reflexivity.
  - exists (S754_finite false 4691249611844266 (-47)).
    exists (4691249611844266 # 140737488355328)%Q.
    repeat (split; [vm_compute; reflexivity|]). reflexivity.
  - exists (S754_finite false 4691249611844266 (-47)).
    exists (4691249611844266 # 140737488355328)%Q.
    repeat (split; [vm_compute; reflexivity|]). reflexivity.
Qed.

Lemma cpu_percentage_formula_witness :
  cpu_percentage [10; 0; 0; 90]
    = Ok (fsub (Z2F 100) (fdiv (fmul (Z2F 90) (Z2F 100)) (Z2F 100))).
Proof.
  apply (proj1 cpu_percentage_formula 10 0 0 90 (Z2F 90) (Z2F 100)).
  - vm_compute. discriminate.
  - reflexivity.
  - reflexivity.
Defined.

(** C5, as stated, fails: with an idle count too large for a double the
    derivation raises [OverflowError] at the multiplication, before the
    division by the zero sum is reached. *)
Lemma cpu_zero_sum_counterexample :
  ~ (forall u n s idle : Z, sum [u; n; s; idle] = 0 ->
       cpu_percentage [u; n; s; idle] = Raise ZeroDivisionError).
Proof.
  intros H. specialize (H (- 2 ^ 1024) 0 0 (2 ^ 1024) eq_refl).
  vm_compute in H. discriminate.
Qed.

(** C5, amended.  For every CPU delta of four integers that sums to zero
    and whose idle count converts to a double without overflow (as every
    integer below 2^1023 in magnitude does), the derivation raises
    [ZeroDivisionError] and returns nothing; so it does for
    [0, 0, 0, 0]. *)
Theorem cpu_zero_sum_raises :
  (forall (u n s idle : Z) (fi : float),
     sum [u; n; s; idle] = 0 ->
     float_of_int idle = Ok fi ->
     cpu_percentage [u; n; s; idle] = Raise ZeroDivisionError)
  /\ (forall u n s idle : Z,
        sum [u; n; s; idle] = 0 -> Z.abs idle < 2 ^ 1023 ->
        cpu_percentage [u; n; s; idle] = Raise ZeroDivisionError)
  /\ cpu_percentage [0; 0; 0; 0] = Raise ZeroDivisionError.
Proof.
  assert (Hgen : forall (u n s idle : Z) (fi : float),
            sum [u; n; s; idle] = 0 ->
            float_of_int idle = Ok fi ->
            cpu_percentage [u; n; s; idle] = Raise ZeroDivisionError).
  { intros u n s idle. exact (cpu_percentage_zero_sum [u; n; s] idle). }
  split; [exact Hgen|]. split; [|reflexivity].
  intros u n s idle Hsum Hidle.
  apply (Hgen u n s idle (Z2F idle) Hsum). now apply float_of_int_fits.
Qed.

Lemma cpu_zero_sum_raises_witness :
  cpu_percentage [5; 0; 0; -5] = Raise ZeroDivisionError.
Proof.
  apply (proj1 cpu_zero_sum_raises 5 0 0 (-5) (Z2F (-5))); reflexivity.
Defined.

(** ** The per-snapshot I/O rates (claim C2) *)

Lemma float_of_int_consts :
  float_of_int 512 = Ok (Z2F 512) /\ float_of_int 128 = Ok (Z2F 128)
  /\ float_of_int 1000 = Ok (Z2F 1000) /\ float_of_int 1 = Ok (Z2F 1).
Proof. repeat split. Qed.

(** C2, as stated, fails: the code multiplies the kilobytes by the
    reciprocal of the seconds, which is not always the double nearest to
    their quotient.  For 49 sectors read in 49000 ms the code returns
    3.9999999999999996 where the quotient is 4.0. *)
Lemma io_rate_counterexample :
  ~ (forall (io_fields : list string) (s5 s6 s9 s10 : string)
            (sectors_read ms_read sectors_written ms_write : float),
       io_fields !! 5%nat = Some s5 -> io_fields !! 6%nat = Some s6 ->
       io_fields !! 9%nat = Some s9 -> io_fields !! 10%nat = Some s10 ->
       py_float s5 = Ok sectors_read -> py_float s6 = Ok ms_read ->
       py_float s9 = Ok sectors_written -> py_float s10 = Ok ms_write ->
       is_zero ms_read = false -> is_zero ms_write = false ->
       CalculateIOBandwidth io_fields
         = (read_rate ← io_rate_spec sectors_read ms_read;
            write_rate ← io_rate_spec sectors_written ms_write;
            Ok [read_rate; write_rate])).
Proof.
  intros H.
  specialize (H (split_ws (diskstats_row "sda" "49" "49000" "128" "1000"))
                "49"%string "49000"%string "128"%string "1000"%string
                (Z2F 49) (Z2F 49000) (Z2F 128) (Z2F 1000)).
  vm_compute in H.
  specialize (H eq_refl eq_refl eq_refl eq_refl eq_refl eq_refl eq_refl eq_refl
                eq_refl eq_refl).
  discriminate.
Qed.

(** C2, amended.  For every field vector whose fields 5, 6, 9 and 10
    are numeric, with [ms_read / 1000] and [ms_write / 1000] non-zero as
    doubles, the computation returns
    [read_rate = (1 / (ms_read / 1000)) * (sectors_read * 512 / 128)] and
    [write_rate = (1 / (ms_write / 1000)) * (sectors_written * 512 / 128)],
    each operation rounded to a double in that order.  Sectors 256 and
    128 with 2000 ms and 1000 ms give 512.0 and 512.0. *)
Theorem io_rate_formula :
  (forall (io_fields : list string) (s5 s6 s9 s10 : string)
          (sectors_read ms_read sectors_written ms_write : float),
     io_fields !! 5%nat = Some s5 -> io_fields !! 6%nat = Some s6 ->
     io_fields !! 9%nat = Some s9 -> io_fields !! 10%nat = Some s10 ->
     py_float s5 = Ok sectors_read -> py_float s6 = Ok ms_read ->
     py_float s9 = Ok sectors_written -> py_float s10 = Ok ms_write ->
     is_zero (fdiv ms_read (Z2F 1000)) = false ->
     is_zero (fdiv ms_write (Z2F 1000)) = false ->
     CalculateIOBandwidth io_fields
       = Ok [fmul (fdiv (Z2F 1) (fdiv ms_read (Z2F 1000)))
                  (fdiv (fmul sectors_read (Z2F 512)) (Z2F 128));
             fmul (fdiv (Z2F 1) (fdiv ms_write (Z2F 1000)))
                  (fdiv (fmul sectors_written (Z2F 512)) (Z2F 128))])
  /\ CalculateIOBandwidth
       (split_ws (diskstats_row "sda" "256" "2000" "128" "1000"))
     = Ok [Z2F 512; Z2F 512].
Proof.
  split; [|vm_compute; reflexivity].
  intros io_fields s5 s6 s9 s10 sr mr sw mw H5 H6 H9 H10 Hsr Hmr Hsw Hmw Hzr Hzw.
  destruct float_of_int_consts as (C512 & C128 & C1000 & C1).
  unfold CalculateIOBandwidth.
  rewrite (getitem_at io_fields 5 s5 ltac:(lia) H5),
    (getitem_at io_fields 6 s6 ltac:(lia) H6),
    (getitem_at io_fields 9 s9 ltac:(lia) H9),
    (getitem_at io_fields 10 s10 ltac:(lia) H10).
  cbn [mbind result_bind].
  unfold float_mul_int, float_div_int, int_div_float.
  rewrite Hsr, Hmr, Hsw, Hmw, C512, C128, C1000, C1.
  cbn [mbind result_bind].
  rewrite !(float_div_nonzero _ (Z2F 128)) by reflexivity.
  rewrite !(float_div_nonzero _ (Z2F 1000)) by reflexivity.
  cbn [mbind result_bind].
  rewrite (float_div_nonzero _ _ Hzr). cbn [mbind result_bind].
  rewrite (float_div_nonzero _ _ Hzw). reflexivity.
Qed.

Lemma io_rate_formula_witness :
  CalculateIOBandwidth (split_ws (diskstats_row "sda" "49" "49000" "128" "1000"))
    = Ok [fmul (fdiv (Z2F 1) (fdiv (Z2F 49000) (Z2F 1000)))
               (fdiv (fmul (Z2F 49) (Z2F 512)) (Z2F 128));
          fmul (fdiv (Z2F 1) (fdiv (Z2F 1000) (Z2F 1000)))
               (fdiv (fmul (Z2F 128) (Z2F 512)) (Z2F 128))].
Proof.
  apply (proj1 io_rate_formula
           (split_ws (diskstats_row "sda" "49" "49000" "128" "1000"))
           "49"%string "49000"%string "128"%string "1000"%string);
    vm_compute; reflexivity.
Defined.

(** ** The scan of the disk file (claims C3, C8, C9) *)

Lemma getitem_Ok_inv {A} (l : list A) (i : Z) x :
  0 <= i -> getitem l i = Ok x -> l !! Z.to_nat i = Some x.
Proof.
  intros Hi. unfold getitem, norm_index.
  replace (i <? 0) with false by lia.
  destruct ((0 <=? i) && (i <? len l)); [|discriminate].
  destruct (l !! Z.to_nat i); [congruence|discriminate].
Qed.

Lemma getitem_short {A} (l : list A) (i : Z) :
  len l <= i -> getitem l i = Raise IndexError.
Proof.
  intros Hi. unfold getitem, norm_index. unfold len in *.
  replace (i <? 0) with false by lia.
  replace ((0 <=? i) && (i <? Z.of_nat (length l))) with false by lia.
  reflexivity.
Qed.

(** One line of the scan, case by case. *)
Lemma scan_line_short disks line st :
  short_line line -> scan_line disks line st = Raise IndexError.
Proof.
  intros Hshort. unfold scan_line, short_line in *.
  rewrite getitem_short by (unfold len; lia). reflexivity.
Qed.

Lemma scan_line_skip disks line st name :
  split_ws line !! 2%nat = Some name -> name ∉ disks ->
  scan_line disks line st = Ok st.
Proof.
  intros Hname Hnot. unfold scan_line.
  rewrite (getitem_at _ 2 name ltac:(lia) Hname). cbn [mbind result_bind].
  rewrite bool_decide_eq_false_2 by exact Hnot. reflexivity.
Qed.

Lemma scan_line_Ok_inv disks line st st' :
  scan_line disks line st = Ok st' ->
  (monitored disks line
   /\ exists bw, CalculateIOBandwidth (split_ws line) = Ok bw /\ st' = Some bw)
  \/ (~ monitored disks line /\ ~ short_line line /\ st' = st).
Proof.
  unfold scan_line. destruct (getitem (split_ws line) 2) as [name|e] eqn:Hget;
    cbn [mbind result_bind]; [|discriminate].
  apply getitem_Ok_inv in Hget; [|lia]. change (Z.to_nat 2) with 2%nat in Hget.
  destruct (bool_decide (name ∈ disks)) eqn:Hdec.
  - apply bool_decide_eq_true_1 in Hdec.
    destruct (CalculateIOBandwidth (split_ws line)) as [bw|e]; cbn; [|discriminate].
    intros [= <-]. left. split; [exists name; auto | eauto].
  - apply bool_decide_eq_false_1 in Hdec. intros [= <-]. right.
    split; [|split; [|reflexivity]].
    + intros (name' & Hname' & Hin). congruence.
    + unfold short_line. pose proof (lookup_lt_Some _ _ _ Hget). lia.
Qed.

(** What a completed scan returns: the local it started with when no
    line belongs to a monitored disk, and otherwise the rates of the last
    line that does. *)
Lemma scan_result disks : forall ls st v,
  for_each ls (scan_line disks) st = Ok v ->
  (v = st /\ forall l, l ∈ ls -> ~ monitored disks l)
  \/ (exists pre line post bw,
        ls = pre ++ line :: post /\ monitored disks line
        /\ (forall l, l ∈ post -> ~ monitored disks l)
        /\ CalculateIOBandwidth (split_ws line) = Ok bw /\ v = Some bw).
Proof.
  induction ls as [|l ls IH]; intros st v Hrun.
  - cbn in Hrun. injection Hrun as <-. left. split; [reflexivity|].
    intros l Hl. inversion Hl.
  - cbn [for_each] in Hrun.
    destruct (scan_line disks l st) as [st1|e] eqn:Hl; cbn [mbind result_bind] in Hrun;
      [|discriminate].
    destruct (IH _ _ Hrun) as [[-> Hnone] | (pre & line & post & bw & -> & Hm & Hpost & Hbw & ->)].
    + destruct (scan_line_Ok_inv _ _ _ _ Hl) as [(Hm & bw & Hbw & ->) | (Hnm & _ & ->)].
      * right. exists [], l, ls, bw. repeat split; auto.
      * left. split; [reflexivity|]. intros l' Hl'.
        apply elem_of_cons in Hl' as [->|Hl']; auto.
    + right. exists (l :: pre), line, post, bw. repeat split; auto.
Qed.

(** A scan over lines that all have a field 2 outside the monitored
    names runs to the end and leaves the local as it was. *)
Lemma scan_no_match disks : forall ls st,
  (forall l, l ∈ ls -> exists name, split_ws l !! 2%nat = Some name /\ name ∉ disks) ->
  for_each ls (scan_line disks) st = Ok st.
Proof.
  induction ls as [|l ls IH]; intros st Hall; [reflexivity|].
  cbn [for_each].
  destruct (Hall l ltac:(left)) as (name & Hname & Hnot).
  rewrite (scan_line_skip _ _ _ _ Hname Hnot). cbn [mbind result_bind].
  apply IH. intros l' Hl'. apply Hall. now right.
Qed.

(** A scan that meets a short line never completes. *)
Lemma scan_short_raises disks : forall pre line post st,
  short_line line -> raises (for_each (pre ++ line :: post) (scan_line disks) st).
Proof.
  induction pre as [|l pre IH]; intros line post st Hshort.
  - cbn [app for_each]. rewrite scan_line_short by exact Hshort.
    exists IndexError. reflexivity.
  - cbn [app for_each]. destruct (scan_line disks l st) as [st1|e].
    + cbn [mbind result_bind]. now apply IH.
    + exists e. reflexivity.
Qed.

(** The error is the index error of the short line when the monitored
    lines before it, if any, have rates that compute. *)
Lemma scan_short_index_error disks : forall pre line post st,
  short_line line ->
  (forall l, l ∈ pre -> monitored disks l ->
     exists bw, CalculateIOBandwidth (split_ws l) = Ok bw) ->
  for_each (pre ++ line :: post) (scan_line disks) st = Raise IndexError.
Proof.
  induction pre as [|l pre IH]; intros line post st Hshort Hpre.
  - cbn [app for_each]. now rewrite scan_line_short.
  - cbn [app for_each].
    assert (Hrest : forall st1,
              for_each (pre ++ line :: post) (scan_line disks) st1 = Raise IndexError).
    { intros st1. apply IH; [exact Hshort|]. intros l' Hl'. apply Hpre. now right. }
    destruct (scan_line disks l st) as [st1|e] eqn:Hl; cbn [mbind result_bind];
      [apply Hrest|].
    unfold scan_line in Hl.
    destruct (getitem (split_ws l) 2) as [name|e'] eqn:Hget; cbn [mbind result_bind] in Hl.
    + apply getitem_Ok_inv in Hget; [|lia]. change (Z.to_nat 2) with 2%nat in Hget.
      destruct (bool_decide (name ∈ disks)) eqn:Hdec; [|discriminate].
      apply bool_decide_eq_true_1 in Hdec.
      destruct (Hpre l ltac:(left) ltac:(exists name; auto)) as [bw Hbw].
      rewrite Hbw in Hl. discriminate.
    + unfold getitem in Hget. destruct (norm_index _ _); [|congruence].
      destruct (_ !! _); congruence.
Qed.

(** A computed bandwidth is always the pair of a read and a write rate. *)
Lemma CalculateIOBandwidth_pair io_fields bw :
  CalculateIOBandwidth io_fields = Ok bw -> exists r w, bw = [r; w].
Proof.
  unfold CalculateIOBandwidth. intros H.
  repeat match type of H with
         | (mbind _ ?m) = Ok _ =>
             let x := fresh "x" in
             destruct m as [x|]; cbn [mbind result_bind] in H; [|discriminate H]
         end.
  injection H as <-. eauto.
Qed.

Lemma io_bandwidth_of_Ok_inv disks text bw :
  io_bandwidth_of disks text = Ok bw ->
  exists pre line post,
    lines text = pre ++ line :: post /\ monitored disks line
    /\ (forall l, l ∈ post -> ~ monitored disks l)
    /\ CalculateIOBandwidth (split_ws line) = Ok bw.
Proof.
  unfold io_bandwidth_of. intros H.
  destruct (for_each (lines text) (scan_line disks) None) as [v|e] eqn:Hscan;
    cbn [mbind result_bind] in H; [|discriminate].
  destruct (scan_result _ _ _ _ Hscan)
    as [[-> _] | (pre & line & post & bw' & Hsplit & Hm & Hpost & Hbw & ->)].
  - discriminate.
  - cbn in H. injection H as <-. eauto 8.
Qed.

Lemma GetIOReadStats_run proc t :
  GetIOReadStats proc t =
    (first_sample ← io_bandwidth_of DISKS_TO_MONITOR (proc IO_DATA_FILE t);
     second_sample ←
       io_bandwidth_of DISKS_TO_MONITOR (proc IO_DATA_FILE (t + SAMPLE_INTERVAL));
     io_delta ← delta_loop fsub first_sample second_sample;
     ior ← getitem io_delta 0;
     iow ← getitem io_delta 1;
     Ok (ior, iow, t + SAMPLE_INTERVAL)).
Proof.
  unfold GetIOReadStats, GetIODelta, GetIOData. run_io.
  destruct (io_bandwidth_of _ (proc IO_DATA_FILE t)) as [a|e]; [|reflexivity].
  destruct (io_bandwidth_of _ _) as [b|e]; [|reflexivity].
  destruct (delta_loop _ _ _) as [d|e]; [|reflexivity].
  destruct (getitem d 0); [|reflexivity].
  destruct (getitem d 1); reflexivity.
Qed.

(** C3.  When the disk file is read at clock [t] and again
    [SAMPLE_INTERVAL] later and both reads give a snapshot, each snapshot
    is the pair of rates computed, at read time, from the raw fields of a
    row of that read, and the numbers emitted are the element-wise
    differences of the two pairs of rates.  That is not the rate of the
    differences of the raw counters: on [sample_proc] the read number is
    170.67 where the raw counters (256 sectors in 2000 ms, then 512
    sectors in 3000 ms) would give 1024. *)
Theorem io_numbers_are_delta_of_rates :
  (forall (proc : string -> Z -> string) (t : Z) (first second : list float),
     io_bandwidth_of DISKS_TO_MONITOR (proc IO_DATA_FILE t) = Ok first ->
     io_bandwidth_of DISKS_TO_MONITOR (proc IO_DATA_FILE (t + SAMPLE_INTERVAL))
       = Ok second ->
     exists row1 row2 r1 w1 r2 w2,
       row1 ∈ lines (proc IO_DATA_FILE t)
       /\ row2 ∈ lines (proc IO_DATA_FILE (t + SAMPLE_INTERVAL))
       /\ CalculateIOBandwidth (split_ws row1) = Ok [r1; w1]
       /\ CalculateIOBandwidth (split_ws row2) = Ok [r2; w2]
       /\ first = [r1; w1] /\ second = [r2; w2]
       /\ GetIOReadStats proc t
            = Ok (fsub r2 r1, fsub w2 w1, t + SAMPLE_INTERVAL))
  /\ exists ior iow by_counters,
       GetIOReadStats sample_proc 0 = Ok (ior, iow, 2)
       /\ py_float "256" = Ok (Z2F 256) /\ py_float "2000" = Ok (Z2F 2000)
       /\ py_float "512" = Ok (Z2F 512) /\ py_float "3000" = Ok (Z2F 3000)
       /\ rate_of_counter_deltas (Z2F 256) (Z2F 2000) (Z2F 512) (Z2F 3000)
            = Ok by_counters
       /\ ior <> by_counters.
Proof.
  split.
  - intros proc t first second H1 H2.
    destruct (io_bandwidth_of_Ok_inv _ _ _ H1) as (pre1 & row1 & post1 & Hl1 & _ & _ & Hb1).
    destruct (io_bandwidth_of_Ok_inv _ _ _ H2) as (pre2 & row2 & post2 & Hl2 & _ & _ & Hb2).
    destruct (CalculateIOBandwidth_pair _ _ Hb1) as (r1 & w1 & ->).
    destruct (CalculateIOBandwidth_pair _ _ Hb2) as (r2 & w2 & ->).
    exists row1, row2, r1, w1, r2, w2.
    split; [rewrite Hl1; apply elem_of_app; right; left|].
    split; [rewrite Hl2; apply elem_of_app; right; left|].
    repeat (split; [auto|]).
    rewrite GetIOReadStats_run, H1, H2. reflexivity.
  - exists (S754_finite false 6004799503160660 (-45)), (S754_zero false), (Z2F 1024).
    repeat (split; [vm_compute; reflexivity|]).
    vm_compute. discriminate.
Qed.

Lemma io_numbers_are_delta_of_rates_witness :
  exists row1 row2 r1 w1 r2 w2,
    row1 ∈ lines (sample_proc IO_DATA_FILE 0)
    /\ row2 ∈ lines (sample_proc IO_DATA_FILE (0 + SAMPLE_INTERVAL))
    /\ CalculateIOBandwidth (split_ws row1) = Ok [r1; w1]
    /\ CalculateIOBandwidth (split_ws row2) = Ok [r2; w2]
    /\ [Z2F 512; Z2F 512] = [r1; w1]
    /\ [fdiv (Z2F 2048) (Z2F 3); Z2F 512] = [r2; w2]
    /\ GetIOReadStats sample_proc 0
         = Ok (fsub r2 r1, fsub w2 w1, 0 + SAMPLE_INTERVAL).
Proof.
  apply (proj1 io_numbers_are_delta_of_rates sample_proc 0
           [Z2F 512; Z2F 512] [fdiv (Z2F 2048) (Z2F 3); Z2F 512]);
    vm_compute; reflexivity.
Defined.

(** C8, as stated, fails: in a text that holds only an empty line no
    line has a field 2 among the monitored names, yet the reader stops
    with an index error, not with the unbound-local error that stands for
    a disk that was not found. *)
Lemma disk_not_found_counterexample :
  ~ (forall text : string,
       (forall line name, line ∈ lines text ->
          split_ws line !! 2%nat = Some name -> name ∉ DISKS_TO_MONITOR) ->
       io_bandwidth_of DISKS_TO_MONITOR text = Raise UnboundLocalError).
Proof.
  intros H. specialize (H nl).
  assert (Hnone : forall line name, line ∈ lines nl ->
            split_ws line !! 2%nat = Some name -> name ∉ DISKS_TO_MONITOR).
  { intros line name Hin. change (lines nl) with [nl] in Hin.
    apply list_elem_of_singleton in Hin as ->. discriminate. }
  specialize (H Hnone). vm_compute in H. discriminate.
Qed.

(** C8, amended.  For every input text in which every line has a field
    at index 2 and none of these fields is in the monitored-disk set, the
    disk snapshot reader fails with the unbound-local error (no disk
    found); and whenever the reader returns a result, that result is
    computed from the last line of the text whose field 2 is in the
    set. *)
Theorem disk_reader_selection (disks : list string) (text : string) :
  ((forall line, line ∈ lines text ->
      exists name, split_ws line !! 2%nat = Some name /\ name ∉ disks) ->
   io_bandwidth_of disks text = Raise UnboundLocalError)
  /\ (forall bw, io_bandwidth_of disks text = Ok bw ->
        exists pre line post,
          lines text = pre ++ line :: post
          /\ monitored disks line
          /\ (forall l, l ∈ post -> ~ monitored disks l)
          /\ CalculateIOBandwidth (split_ws line) = Ok bw).
Proof.
  split.
  - intros Hall. unfold io_bandwidth_of.
    rewrite (scan_no_match disks (lines text) None Hall). reflexivity.
  - apply io_bandwidth_of_Ok_inv.
Qed.

Lemma disk_reader_selection_witness :
  io_bandwidth_of DISKS_TO_MONITOR (diskstats_row "sdb" "256" "2000" "128" "1000")
    = Raise UnboundLocalError.
Proof.
  apply (proj1 (disk_reader_selection DISKS_TO_MONITOR
                  (diskstats_row "sdb" "256" "2000" "128" "1000"))).
  intros line Hin.
  change (line ∈ [diskstats_row "sdb" "256" "2000" "128" "1000"]) in Hin.
  apply list_elem_of_singleton in Hin as ->.
  exists "sdb"%string. split; [reflexivity|].
  unfold DISKS_TO_MONITOR. intros Hin. apply list_elem_of_singleton in Hin.
  discriminate.
Defined.

Example last_matching_row_wins :
  io_bandwidth_of DISKS_TO_MONITOR
    (diskstats_row "sda" "49" "49000" "128" "1000"
     +:+ diskstats_row "sdb" "1" "1" "1" "1"
     +:+ diskstats_row "sda" "256" "2000" "128" "1000"
     +:+ diskstats_row "sdc" "1" "1" "1" "1")
  = Ok [Z2F 512; Z2F 512].
Proof. vm_compute. reflexivity. Qed.

(** C9, as stated, fails: when a monitored row before the short line
    cannot be rated, the reader stops there with that row's error (here a
    division by zero), not with an index error at the short line. *)
Lemma short_line_counterexample :
  ~ (forall text : string,
       (exists line, line ∈ lines text /\ short_line line) ->
       io_bandwidth_of DISKS_TO_MONITOR text = Raise IndexError).
Proof.
  intros H. specialize (H (diskstats_row "sda" "0" "0" "0" "0" +:+ nl)).
  assert (Hshort : exists line,
            line ∈ lines (diskstats_row "sda" "0" "0" "0" "0" +:+ nl)
            /\ short_line line).
  { exists nl. split.
    - change (nl ∈ [diskstats_row "sda" "0" "0" "0" "0"; nl]).
      right. left.
    - unfold short_line. simpl. lia. }
  specialize (H Hshort). vm_compute in H. discriminate.
Qed.

(** C9, amended.  For every input text containing a line with fewer than
    3 whitespace-separated fields, the disk snapshot reader fails and
    returns nothing.  Such a line never belongs to a monitored disk, and
    scanning it raises an index error whatever was found before, because
    the field at index 2 is read before the membership test.  The reader
    as a whole fails with that index error whenever each monitored row
    before the first such line has rates that compute. *)
Theorem short_line_raises (disks : list string) (text : string)
    (pre post : list string) (line : string) :
  lines text = pre ++ line :: post ->
  short_line line ->
  raises (io_bandwidth_of disks text)
  /\ ~ monitored disks line
  /\ (forall st, scan_line disks line st = Raise IndexError)
  /\ ((forall l, l ∈ pre -> monitored disks l ->
         exists bw, CalculateIOBandwidth (split_ws l) = Ok bw) ->
      io_bandwidth_of disks text = Raise IndexError).
Proof.
  intros Hsplit Hshort. split; [|split; [|split]].
  - unfold io_bandwidth_of. rewrite Hsplit.
    destruct (scan_short_raises disks pre line post None Hshort) as [e ->].
    exists e. reflexivity.
  - intros (name & Hname & _). unfold short_line in Hshort.
    pose proof (lookup_lt_Some _ _ _ Hname). lia.
  - intros st. now apply scan_line_short.
  - intros Hpre. unfold io_bandwidth_of. rewrite Hsplit.
    rewrite (scan_short_index_error disks pre line post None Hshort Hpre).
    reflexivity.
Qed.

Lemma short_line_raises_witness :
  raises (io_bandwidth_of DISKS_TO_MONITOR
            (diskstats_row "sdb" "1" "1" "1" "1" +:+ "8 0" +:+ nl))
  /\ ~ monitored DISKS_TO_MONITOR ("8 0" +:+ nl)
  /\ (forall st, scan_line DISKS_TO_MONITOR ("8 0" +:+ nl) st = Raise IndexError)
  /\ ((forall l, l ∈ [diskstats_row "sdb" "1" "1" "1" "1"] ->
         monitored DISKS_TO_MONITOR l ->
         exists bw, CalculateIOBandwidth (split_ws l) = Ok bw) ->
      io_bandwidth_of DISKS_TO_MONITOR
        (diskstats_row "sdb" "1" "1" "1" "1" +:+ "8 0" +:+ nl)
      = Raise IndexError).
Proof.
  apply (short_line_raises DISKS_TO_MONITOR
           (diskstats_row "sdb" "1" "1" "1" "1" +:+ "8 0" +:+ nl)
           [diskstats_row "sdb" "1" "1" "1" "1"] [] ("8 0" +:+ nl)).
  - reflexivity.
  - unfold short_line. simpl. lia.
Defined.

(** ** The CPU snapshot reader (claim C7) *)

Section MapM.
Context {A B : Type} (f : A -> result B).

Lemma mapM_Ok (l : list A) (k : list B) :
  mapM f l = Ok k <-> Forall2 (fun x y => f x = Ok y) l k.
Proof.
  revert k. induction l as [|x l IH]; intros k; cbn.
  - split; [intros [= <-]; constructor | intros Hk; inversion Hk; reflexivity].
  - split.
    + destruct (f x) as [y|e] eqn:Hx; cbn; [|discriminate].
      destruct (mapM f l) as [k'|e] eqn:Hl; cbn; [|discriminate].
      intros [= <-]. constructor; [exact Hx | now apply IH].
    + intros Hk. inversion Hk as [|x' y l' k' Hx Hrest]; subst.
      rewrite Hx. cbn. apply IH in Hrest. rewrite Hrest. reflexivity.
Qed.


End MapM.


(** [split_on] cuts at every separator and nowhere else: no token holds
    a separator, and joining the tokens with it gives the string back. *)
Lemma split_on_nonempty sep s : split_on sep s <> [].
Proof.
  destruct s as [|c rest]; cbn; [discriminate|].
  destruct (Ascii.eqb c sep); [discriminate|].
  destruct (split_on sep rest); discriminate.
Qed.



Lemma GetCPUData_run proc t :
  GetCPUData proc t = (v ← cpu_usage (proc CPU_DATA_FILE t); Ok (v, t)).
Proof. unfold GetCPUData. run_io. destruct (cpu_usage _); reflexivity. Qed.

(** On a row in the format of /proc/stat the code takes the four
    counters after the label, whereas whitespace-separated tokens 2 to 5
    would be the four counters after the first one. *)
Example cpu_tokens_of_stat_row :
  cpu_tokens (stat_row "100" "0" "0" "300") = ["100"; "0"; "0"; "300"]%string
  /\ ReadCPUSnapshot_tokens (stat_row "100" "0" "0" "300")
     = ["0"; "0"; "300"; "50"]%string.
Proof. split; reflexivity. Qed.




Example cpu_reader_short_line : cpu_usage ("cpu  1 2" +:+ nl) = Ok [1; 2].
Proof. reflexivity. Qed.

Example cpu_reader_empty_file : cpu_usage EmptyString = Ok [].
Proof. reflexivity. Qed.

(** * Part III: further properties of the sampling code *)

(** ** More on the conversion of integers *)

Lemma binary_round_aux_shape s m e l :
  0 < m -> emin prec emax < Zdigits2 m + e ->
  binary_round_aux prec emax s m e l = S754_infinity s
  \/ exists m' e', binary_round_aux prec emax s m e l = S754_finite s m' e'.
Proof.
  intros Hm HD. unfold binary_round_aux.
  pose proof (shr_fexp_pos m e l Hm HD) as [Hpos1 HD1].
  destruct (shr_fexp prec emax m e l) as [r1 e1]. simpl fst in *. simpl snd in *.
  set (m2 := round_nearest_even (shr_m r1) (loc_of_shr_record r1)).
  pose proof (round_nearest_even_ge (shr_m r1) (loc_of_shr_record r1)) as Hge.
  fold m2 in Hge.
  pose proof (Zdigits2_mono _ _ Hpos1 Hge) as Hmono.
  pose proof (shr_fexp_pos m2 e1 loc_Exact ltac:(lia) ltac:(lia)) as [Hpos2 _].
  destruct (shr_fexp prec emax m2 e1 loc_Exact) as [r2 e2]. simpl fst in *.
  destruct (shr_m r2) as [|q|q]; try lia.
  destruct (e2 <=? emax - prec); eauto.
Qed.

Lemma Z2F_shape z :
  z <> 0 ->
  Z2F z = S754_infinity (z <? 0)
  \/ exists m e, Z2F z = S754_finite (z <? 0) m e.
Proof.
  intros Hz. unfold Z2F, binary_normalize.
  assert (Hround : forall s p,
            binary_round prec emax s p 0 = S754_infinity s
            \/ exists m e, binary_round prec emax s p 0 = S754_finite s m e).
  { intros s p. unfold binary_round, shl_align.
    pose proof (fexp_ge_emin (Z.pos (digits2_pos p) + 0)) as Hf.
    destruct (fexp prec emax (Z.pos (digits2_pos p) + 0) - 0) as [|d|d] eqn:Hd;
      apply binary_round_aux_shape; simpl Zdigits2;
      change (emin prec emax) with (-1074) in *; lia. }
  destruct z as [|p|p]; [congruence|apply Hround..].
Qed.

Lemma float_of_int_finite z f :
  z <> 0 -> float_of_int z = Ok f -> exists m e, f = S754_finite (z <? 0) m e.
Proof.
  intros Hz. unfold float_of_int.
  destruct (Z2F_shape z Hz) as [-> | (m & e & ->)]; [discriminate|].
  intros [= <-]. eauto.
Qed.

(** ** Edge cases of the CPU percentage *)

Lemma GetCPUStats_run proc t :
  GetCPUStats proc t =
    (first_sample ← cpu_usage (proc CPU_DATA_FILE t);
     second_sample ← cpu_usage (proc CPU_DATA_FILE (t + SAMPLE_INTERVAL));
     cpu_delta ← delta_loop Z.sub first_sample second_sample;
     cpu_percentage ← cpu_percentage cpu_delta;
     Ok (cpu_percentage, t + SAMPLE_INTERVAL)).
Proof.
  unfold GetCPUStats, GetCPUDelta, GetCPUData. run_io.
  destruct (cpu_usage (proc CPU_DATA_FILE t)) as [a|e]; [|reflexivity].
  destruct (cpu_usage _) as [b|e]; [|reflexivity].
  destruct (delta_loop _ _ _) as [d|e]; [|reflexivity].
  destruct (cpu_percentage d); reflexivity.
Qed.

(** X1.  A delta whose idle count is zero and whose sum is non-zero (and
    fits a double) gives exactly 100.0, whatever the other counts are
    and however many there are. *)
Theorem cpu_percentage_no_idle (busy : list Z) (fs : float) :
  sum (busy ++ [0]) <> 0 ->
  float_of_int (sum (busy ++ [0])) = Ok fs ->
  cpu_percentage (busy ++ [0]) = Ok (Z2F 100).
Proof.
  intros Hsum Hfs.
  rewrite (cpu_percentage_eval busy 0 (S754_zero false) fs Hsum eq_refl Hfs).
  destruct (float_of_int_finite _ _ Hsum Hfs) as (m & e & ->).
  reflexivity.
Qed.

Lemma cpu_percentage_no_idle_witness :
  cpu_percentage ([7; 0; 3] ++ [0]) = Ok (Z2F 100).
Proof.
  apply (cpu_percentage_no_idle [7; 0; 3] (Z2F 10)).
  - vm_compute. discriminate.
  - reflexivity.
Defined.

Lemma delta_loop_same (v : list Z) :
  delta_loop Z.sub v v = Ok (replicate (length v) 0).
Proof.
  destruct (delta_loop_prefix Z.sub v v) as (r & -> & Hlen & Hin & _); [lia|].
  f_equal. apply list_eq. intros i.
  destruct (v !! i) as [x|] eqn:Hx.
  - rewrite (Hin i x x Hx Hx), Z.sub_diag.
    symmetry. apply lookup_replicate_2. eapply lookup_lt_Some; eauto.
  - apply lookup_ge_None in Hx.
    rewrite (proj2 (lookup_ge_None r i)) by lia.
    symmetry. apply lookup_ge_None. rewrite length_replicate. lia.
Qed.

Lemma sum_replicate_0 n : sum (replicate n 0) = 0.
Proof.
  unfold sum. induction n as [|n IH]; [reflexivity|]. cbn. exact IH.
Qed.

(** X2.  When the two reads of the CPU file give the same counters, the
    delta is all zeros and [GetCPUStats] fails: with a division by zero
    when there is at least one counter, with an index error when there
    is none. *)
Theorem GetCPUStats_unchanged proc t (v : list Z) :
  cpu_usage (proc CPU_DATA_FILE t) = Ok v ->
  cpu_usage (proc CPU_DATA_FILE (t + SAMPLE_INTERVAL)) = Ok v ->
  GetCPUStats proc t
    = Raise (if decide (v = []) then IndexError else ZeroDivisionError).
Proof.
  intros H1 H2. rewrite GetCPUStats_run, H1, H2. cbn [mbind result_bind].
  rewrite delta_loop_same. cbn [mbind result_bind].
  destruct v as [|x v]; [reflexivity|].
  rewrite decide_False by discriminate.
  change (length (x :: v)) with (S (length v)).
  rewrite replicate_S_end.
  erewrite cpu_percentage_zero_sum; [reflexivity| |reflexivity].
  rewrite <- replicate_S_end. apply sum_replicate_0.
Qed.

Lemma GetCPUStats_unchanged_witness :
  GetCPUStats (fun _ _ => stat_row "100" "0" "0" "300") 0
    = Raise (if decide ([100; 0; 0; 300] = []) then IndexError
             else ZeroDivisionError).
Proof.
  apply (GetCPUStats_unchanged (fun _ _ => stat_row "100" "0" "0" "300") 0
           [100; 0; 0; 300]); reflexivity.
Defined.

(** ** Edge cases of the I/O numbers *)

Lemma fsub_diag (x : float) :
  fsub x x = if is_finite x then S754_zero false else S754_nan.
Proof.
  destruct x as [[]|[]| |s m e]; try reflexivity.
  unfold fsub, SFsub. cbv beta iota zeta. cbn [is_finite]. rewrite Z.min_id.
  unfold shl_align. rewrite !Z.sub_diag. reflexivity.
Qed.

(** X3.  When the two reads of the disk file give the same pair of
    rates, the numbers emitted are not a rate but the difference of that
    pair with itself: +0.0 for a finite rate, NaN for an infinite or NaN
    rate. *)
Theorem GetIOReadStats_unchanged proc t (r w : float) :
  io_bandwidth_of DISKS_TO_MONITOR (proc IO_DATA_FILE t) = Ok [r; w] ->
  io_bandwidth_of DISKS_TO_MONITOR (proc IO_DATA_FILE (t + SAMPLE_INTERVAL))
    = Ok [r; w] ->
  GetIOReadStats proc t
    = Ok (if is_finite r then S754_zero false else S754_nan,
          if is_finite w then S754_zero false else S754_nan,
          t + SAMPLE_INTERVAL).
Proof.
  intros H1 H2. rewrite GetIOReadStats_run, H1, H2.
  change (Ok (fsub r r, fsub w w, t + SAMPLE_INTERVAL) = Ok
    (if is_finite r then S754_zero false else S754_nan,
     if is_finite w then S754_zero false else S754_nan, t + SAMPLE_INTERVAL)).
  rewrite !fsub_diag. reflexivity.
Qed.

Lemma GetIOReadStats_unchanged_witness :
  GetIOReadStats (fun _ _ => diskstats_row "sda" "256" "2000" "128" "1000") 0
    = Ok (if is_finite (Z2F 512) then S754_zero false else S754_nan,
          if is_finite (Z2F 512) then S754_zero false else S754_nan,
          0 + SAMPLE_INTERVAL).
Proof.
  apply (GetIOReadStats_unchanged
           (fun _ _ => diskstats_row "sda" "256" "2000" "128" "1000") 0
           (Z2F 512) (Z2F 512)); vm_compute; reflexivity.
Defined.

(** X4.  [GetIOReadStats] fails exactly when one of its two reads of the
    disk file fails, with the error of the first read that fails: once
    both reads have given rates, the delta and the two subscripts cannot
    fail, since a snapshot always holds two rates. *)
Theorem GetIOReadStats_failure proc t (e : exn) :
  GetIOReadStats proc t = Raise e <->
  io_bandwidth_of DISKS_TO_MONITOR (proc IO_DATA_FILE t) = Raise e
  \/ ((exists first, io_bandwidth_of DISKS_TO_MONITOR (proc IO_DATA_FILE t)
                       = Ok first)
      /\ io_bandwidth_of DISKS_TO_MONITOR (proc IO_DATA_FILE (t + SAMPLE_INTERVAL))
           = Raise e).
Proof.
  rewrite GetIOReadStats_run.
  destruct (io_bandwidth_of _ (proc IO_DATA_FILE t)) as [first|e1] eqn:H1;
    cbn [mbind result_bind].
  - destruct (io_bandwidth_of _ (proc IO_DATA_FILE (t + SAMPLE_INTERVAL)))
      as [second|e2] eqn:H2; cbn [mbind result_bind].
    + destruct (io_bandwidth_of_Ok_inv _ _ _ H1) as (_ & row1 & _ & _ & _ & _ & Hb1).
      destruct (io_bandwidth_of_Ok_inv _ _ _ H2) as (_ & row2 & _ & _ & _ & _ & Hb2).
      destruct (CalculateIOBandwidth_pair _ _ Hb1) as (r1 & w1 & ->).
      destruct (CalculateIOBandwidth_pair _ _ Hb2) as (r2 & w2 & ->).
      cbn. split; [discriminate|]. intros [?|[_ ?]]; discriminate.
    + split; [intros [= <-]; right; eauto | intros [?|[_ ?]]; congruence].
  - split; [intros [= <-]; now left | intros [?|[[? ?] _]]; congruence].
Qed.

(** ** [GetStatistics]: one tick *)

Lemma GetCPUStats_clock proc t c t' :
  GetCPUStats proc t = Ok (c, t') -> t' = t + SAMPLE_INTERVAL.
Proof.
  rewrite GetCPUStats_run.
  repeat match goal with
         | |- (mbind _ ?m) = Ok _ -> _ =>
             destruct m; cbn [mbind result_bind]; [|discriminate]
         end.
  congruence.
Qed.

Lemma GetIOReadStats_clock proc t v t' :
  GetIOReadStats proc t = Ok (v, t') -> t' = t + SAMPLE_INTERVAL.
Proof.
  rewrite GetIOReadStats_run.
  repeat match goal with
         | |- (mbind _ ?m) = Ok _ -> _ =>
             destruct m; cbn [mbind result_bind]; [|discriminate]
         end.
  congruence.
Qed.

Lemma GetStatistics_run proc t :
  GetStatistics proc t =
    match GetCPUStats proc t with
    | Ok (cpu, t1) =>
        match GetIOReadStats proc t1 with
        | Ok (ior, iow, t2) => Ok (cpu, ior, iow, t2)
        | Raise e => Raise e
        end
    | Raise e => Raise e
    end.
Proof.
  unfold GetStatistics. run_io.
  destruct (GetCPUStats proc t) as [[cpu t1]|e]; [|reflexivity].
  destruct (GetIOReadStats proc t1) as [[[ior iow] t2]|e]; reflexivity.
Qed.

(** X5.  One tick samples the CPU pair first and the I/O pair after it,
    without overlap: it succeeds exactly when [GetCPUStats] succeeds at
    clock [t] and [GetIOReadStats] succeeds at clock [t + 2], it ends at
    clock [t + 4], and it fails with the error of the CPU pair if that
    fails, otherwise with the error of the I/O pair. *)
Theorem GetStatistics_schedule proc t :
  (forall cpu ior iow t',
     GetStatistics proc t = Ok (cpu, ior, iow, t') <->
     GetCPUStats proc t = Ok (cpu, t + SAMPLE_INTERVAL)
     /\ GetIOReadStats proc (t + SAMPLE_INTERVAL)
          = Ok (ior, iow, t + 2 * SAMPLE_INTERVAL)
     /\ t' = t + 2 * SAMPLE_INTERVAL)
  /\ (forall e,
        GetStatistics proc t = Raise e <->
        GetCPUStats proc t = Raise e
        \/ ((exists c, GetCPUStats proc t = Ok c)
            /\ GetIOReadStats proc (t + SAMPLE_INTERVAL) = Raise e)).
Proof.
  rewrite GetStatistics_run. split.
  - intros cpu ior iow t'.
    destruct (GetCPUStats proc t) as [[cpu1 t1]|e] eqn:Hc.
    + pose proof (GetCPUStats_clock _ _ _ _ Hc) as ->.
      destruct (GetIOReadStats proc (t + SAMPLE_INTERVAL)) as [[[ior1 iow1] t2]|e]
        eqn:Hio.
      * pose proof (GetIOReadStats_clock _ _ _ _ Hio) as ->.
        replace (t + SAMPLE_INTERVAL + SAMPLE_INTERVAL)
          with (t + 2 * SAMPLE_INTERVAL) by lia.
        split; [intros [= <- <- <- <-]; auto | intros ([= <-] & [= <- <-] & ->); auto].
      * split; [discriminate | intros (_ & ? & _); discriminate].
    + split; [discriminate | intros (? & _); discriminate].
  - intros e.
    destruct (GetCPUStats proc t) as [[cpu1 t1]|e1] eqn:Hc.
    + pose proof (GetCPUStats_clock _ _ _ _ Hc) as ->.
      destruct (GetIOReadStats proc (t + SAMPLE_INTERVAL)) as [[[ior1 iow1] t2]|e2].
      * split; [discriminate | intros [?|[_ ?]]; discriminate].
      * split; [intros [= <-]; right; eauto | intros [?|[_ ?]]; congruence].
    + split; [intros [= <-]; now left | intros [?|[[? ?] _]]; congruence].
Qed.

(** X6.  One tick looks at the CPU file at clocks [t] and [t + 2] and at
    the disk file at clocks [t + 2] and [t + 4], and at nothing else: two
    machines that agree on these four reads give the same tick. *)
Theorem GetStatistics_reads proc proc' t :
  proc CPU_DATA_FILE t = proc' CPU_DATA_FILE t ->
  proc CPU_DATA_FILE (t + 2) = proc' CPU_DATA_FILE (t + 2) ->
  proc IO_DATA_FILE (t + 2) = proc' IO_DATA_FILE (t + 2) ->
  proc IO_DATA_FILE (t + 4) = proc' IO_DATA_FILE (t + 4) ->
  GetStatistics proc t = GetStatistics proc' t.
Proof.
  intros Hc0 Hc2 Hd2 Hd4. rewrite !GetStatistics_run.
  assert (Hcpu : GetCPUStats proc t = GetCPUStats proc' t).
  { rewrite !GetCPUStats_run. unfold SAMPLE_INTERVAL. now rewrite Hc0, Hc2. }
  rewrite <- Hcpu.
  destruct (GetCPUStats proc t) as [[cpu t1]|e] eqn:Hc; [|reflexivity].
  pose proof (GetCPUStats_clock _ _ _ _ Hc) as ->.
  assert (Hio : GetIOReadStats proc (t + SAMPLE_INTERVAL)
                = GetIOReadStats proc' (t + SAMPLE_INTERVAL)).
  { rewrite !GetIOReadStats_run. unfold SAMPLE_INTERVAL.
    replace (t + 2 + 2) with (t + 4) by lia. now rewrite Hd2, Hd4. }
  now rewrite Hio.
Qed.

Lemma GetStatistics_reads_witness :
  GetStatistics sample_proc 0
    = GetStatistics
        (fun path t => if (t <? 0) || (4 <? t) then EmptyString
                       else sample_proc path t) 0.
Proof.
  apply (GetStatistics_reads sample_proc
           (fun path t => if (t <? 0) || (4 <? t) then EmptyString
                          else sample_proc path t) 0); reflexivity.
Defined.

(** ** Outcomes of [CalculateIOBandwidth] *)

Lemma py_float_error (s : string) (e : exn) : py_float s = Raise e -> e = ValueError.
Proof.
  unfold py_float. destruct (take_sign (strip s)) as [neg body].
  destruct (_ || _); [discriminate|].
  destruct (String.eqb _ _); [discriminate|].
  destruct (take_digits body 0 0) as [[ip n1] r1].
  destruct (match r1 with String "."%char frac => _ | _ => _ end) as [[mant n2] r2].
  destruct (0 <? n1 + n2); [|congruence].
  destruct (take_exponent r2); congruence.
Qed.

(** The computation once the four fields are at hand: the arithmetic on
    the constants 512, 128 and 1000 cannot fail, only the two
    reciprocals can. *)
Lemma CalculateIOBandwidth_eval (io_fields : list string) (s5 s6 s9 s10 : string) :
  io_fields !! 5%nat = Some s5 -> io_fields !! 6%nat = Some s6 ->
  io_fields !! 9%nat = Some s9 -> io_fields !! 10%nat = Some s10 ->
  CalculateIOBandwidth io_fields =
    (sectors_read ← py_float s5;
     sectors_wrote ← py_float s9;
     reading_milliseconds ← py_float s6;
     writing_milliseconds ← py_float s10;
     inv_read ← float_div (Z2F 1) (fdiv reading_milliseconds (Z2F 1000));
     inv_write ← float_div (Z2F 1) (fdiv writing_milliseconds (Z2F 1000));
     Ok [fmul inv_read (fdiv (fmul sectors_read (Z2F 512)) (Z2F 128));
         fmul inv_write (fdiv (fmul sectors_wrote (Z2F 512)) (Z2F 128))]).
Proof.
  intros H5 H6 H9 H10.
  destruct float_of_int_consts as (C512 & C128 & C1000 & C1).
  unfold CalculateIOBandwidth.
  rewrite (getitem_at io_fields 5 s5 ltac:(lia) H5),
    (getitem_at io_fields 6 s6 ltac:(lia) H6),
    (getitem_at io_fields 9 s9 ltac:(lia) H9),
    (getitem_at io_fields 10 s10 ltac:(lia) H10).
  cbn [mbind result_bind].
  unfold float_mul_int, float_div_int, int_div_float.
  rewrite C512, C128, C1000, C1.
  destruct (py_float s5) as [sr|]; cbn [mbind result_bind]; [|reflexivity].
  rewrite !(float_div_nonzero _ (Z2F 128)) by reflexivity. cbn [mbind result_bind].
  destruct (py_float s9) as [sw|]; cbn [mbind result_bind]; [|reflexivity].
  rewrite !(float_div_nonzero _ (Z2F 128)) by reflexivity. cbn [mbind result_bind].
  destruct (py_float s6) as [mr|]; cbn [mbind result_bind]; [|reflexivity].
  rewrite !(float_div_nonzero _ (Z2F 1000)) by reflexivity. cbn [mbind result_bind].
  destruct (py_float s10) as [mw|]; cbn [mbind result_bind]; [|reflexivity].
  rewrite !(float_div_nonzero _ (Z2F 1000)) by reflexivity. cbn [mbind result_bind].
  destruct (float_div (Z2F 1) (fdiv mr (Z2F 1000))); cbn [mbind result_bind];
    [|reflexivity].
  destruct (float_div (Z2F 1) (fdiv mw (Z2F 1000))); reflexivity.
Qed.

Lemma eleven_fields (io_fields : list string) :
  (11 <= length io_fields)%nat ->
  exists s5 s6 s9 s10,
    io_fields !! 5%nat = Some s5 /\ io_fields !! 6%nat = Some s6
    /\ io_fields !! 9%nat = Some s9 /\ io_fields !! 10%nat = Some s10.
Proof.
  intros Hlen.
  destruct (lookup_lt_is_Some_2 io_fields 5 ltac:(lia)) as [s5 H5].
  destruct (lookup_lt_is_Some_2 io_fields 6 ltac:(lia)) as [s6 H6].
  destruct (lookup_lt_is_Some_2 io_fields 9 ltac:(lia)) as [s9 H9].
  destruct (lookup_lt_is_Some_2 io_fields 10 ltac:(lia)) as [s10 H10].
  eauto 10.
Qed.

Lemma CalculateIOBandwidth_few_fields (io_fields : list string) :
  (length io_fields < 11)%nat -> CalculateIOBandwidth io_fields = Raise IndexError.
Proof.
  intros Hlen.
  do 11 (destruct io_fields as [|? io_fields]; [reflexivity|]).
  cbn [length] in Hlen. lia.
Qed.

Lemma CalculateIOBandwidth_raises (io_fields : list string) (e : exn) :
  CalculateIOBandwidth io_fields = Raise e ->
  e = IndexError \/ e = ValueError \/ e = ZeroDivisionError.
Proof.
  intros Hraise.
  destruct (decide (length io_fields < 11)%nat) as [Hlt|Hge].
  { rewrite (CalculateIOBandwidth_few_fields _ Hlt) in Hraise. left. congruence. }
  right.
  destruct (eleven_fields io_fields ltac:(lia)) as (s5 & s6 & s9 & s10 & H5 & H6 & H9 & H10).
  rewrite (CalculateIOBandwidth_eval _ _ _ _ _ H5 H6 H9 H10) in Hraise.
  destruct (py_float s5) as [sr|e5] eqn:E5; cbn [mbind result_bind] in Hraise;
    [|apply py_float_error in E5; left; congruence].
  destruct (py_float s9) as [sw|e9] eqn:E9; cbn [mbind result_bind] in Hraise;
    [|apply py_float_error in E9; left; congruence].
  destruct (py_float s6) as [mr|e6] eqn:E6; cbn [mbind result_bind] in Hraise;
    [|apply py_float_error in E6; left; congruence].
  destruct (py_float s10) as [mw|e10] eqn:E10; cbn [mbind result_bind] in Hraise;
    [|apply py_float_error in E10; left; congruence].
  unfold float_div in Hraise.
  destruct (is_zero (fdiv mr _)); cbn [mbind result_bind] in Hraise;
    [right; congruence|].
  destruct (is_zero (fdiv mw _)); cbn [mbind result_bind] in Hraise;
    [right; congruence | discriminate].
Qed.

(** X7.  [CalculateIOBandwidth] fails with an index error exactly when
    the row has fewer than 11 fields, whatever the fields hold: the four
    subscripts come before any conversion. *)
Theorem CalculateIOBandwidth_index_error (io_fields : list string) :
  CalculateIOBandwidth io_fields = Raise IndexError
  <-> (length io_fields < 11)%nat.
Proof.
  split; [|apply CalculateIOBandwidth_few_fields].
  intros Hraise. destruct (decide (length io_fields < 11)%nat) as [|Hge]; [assumption|].
  exfalso.
  destruct (eleven_fields io_fields ltac:(lia)) as (s5 & s6 & s9 & s10 & H5 & H6 & H9 & H10).
  rewrite (CalculateIOBandwidth_eval _ _ _ _ _ H5 H6 H9 H10) in Hraise.
  destruct (py_float s5) as [sr|e5] eqn:E5; cbn [mbind result_bind] in Hraise;
    [|apply py_float_error in E5; congruence].
  destruct (py_float s9) as [sw|e9] eqn:E9; cbn [mbind result_bind] in Hraise;
    [|apply py_float_error in E9; congruence].
  destruct (py_float s6) as [mr|e6] eqn:E6; cbn [mbind result_bind] in Hraise;
    [|apply py_float_error in E6; congruence].
  destruct (py_float s10) as [mw|e10] eqn:E10; cbn [mbind result_bind] in Hraise;
    [|apply py_float_error in E10; congruence].
  unfold float_div in Hraise.
  destruct (is_zero (fdiv mr _)); cbn [mbind result_bind] in Hraise; [discriminate|].
  destruct (is_zero (fdiv mw _)); discriminate.
Qed.

(** X8.  On a row of at least 11 fields [CalculateIOBandwidth] fails
    with a value error exactly when one of the fields 5, 6, 9, 10 is not
    a float literal, and with a division by zero exactly when the four
    are float literals and the milliseconds read or written, divided by
    1000, are zero; it fails in no other way. *)
Theorem CalculateIOBandwidth_errors (io_fields : list string) (s5 s6 s9 s10 : string) :
  io_fields !! 5%nat = Some s5 -> io_fields !! 6%nat = Some s6 ->
  io_fields !! 9%nat = Some s9 -> io_fields !! 10%nat = Some s10 ->
  (CalculateIOBandwidth io_fields = Raise ValueError <->
     exists s, s ∈ [s5; s6; s9; s10] /\ py_float s = Raise ValueError)
  /\ (CalculateIOBandwidth io_fields = Raise ZeroDivisionError <->
        exists sr mr sw mw,
          py_float s5 = Ok sr /\ py_float s6 = Ok mr
          /\ py_float s9 = Ok sw /\ py_float s10 = Ok mw
          /\ (is_zero (fdiv mr (Z2F 1000)) = true
              \/ is_zero (fdiv mw (Z2F 1000)) = true))
  /\ (forall e, CalculateIOBandwidth io_fields = Raise e ->
        e = ValueError \/ e = ZeroDivisionError).
Proof.
  intros H5 H6 H9 H10.
  rewrite (CalculateIOBandwidth_eval _ _ _ _ _ H5 H6 H9 H10).
  assert (Hbad : forall s e, py_float s = Raise e -> py_float s = Raise ValueError).
  { intros s e He. now rewrite (py_float_error _ _ He) in He. }
  destruct (py_float s5) as [sr|e5] eqn:E5; cbn [mbind result_bind].
  2:{ pose proof (py_float_error _ _ E5) as ->. repeat split; auto.
      - intros _. exists s5. split; [apply list_elem_of_In; simpl; auto | assumption].
      - discriminate.
      - intros (? & ? & ? & ? & ? & _). discriminate.
      - intros e [= <-]. now left. }
  destruct (py_float s9) as [sw|e9] eqn:E9; cbn [mbind result_bind].
  2:{ pose proof (py_float_error _ _ E9) as ->. repeat split; auto.
      - intros _. exists s9. split; [apply list_elem_of_In; simpl; auto | assumption].
      - discriminate.
      - intros (? & ? & ? & ? & ? & ? & ? & _). discriminate.
      - intros e [= <-]. now left. }
  destruct (py_float s6) as [mr|e6] eqn:E6; cbn [mbind result_bind].
  2:{ pose proof (py_float_error _ _ E6) as ->. repeat split; auto.
      - intros _. exists s6. split; [apply list_elem_of_In; simpl; auto | assumption].
      - discriminate.
      - intros (? & ? & ? & ? & ? & ? & _). discriminate.
      - intros e [= <-]. now left. }
  destruct (py_float s10) as [mw|e10] eqn:E10; cbn [mbind result_bind].
  2:{ pose proof (py_float_error _ _ E10) as ->. repeat split; auto.
      - intros _. exists s10. split; [apply list_elem_of_In; simpl; auto | assumption].
      - discriminate.
      - intros (? & ? & ? & ? & ? & ? & ? & ? & _). discriminate.
      - intros e [= <-]. now left. }
  assert (Hnone : ~ exists s, s ∈ [s5; s6; s9; s10] /\ py_float s = Raise ValueError).
  { intros (s & Hin & Hs). apply list_elem_of_In in Hin. simpl in Hin.
    destruct Hin as [<-|[<-|[<-|[<-|[]]]]]; congruence. }
  unfold float_div.
  destruct (is_zero (fdiv mr (Z2F 1000))) eqn:Zr; cbn [mbind result_bind].
  { repeat split; try discriminate; try tauto.
    - intros _. exists sr, mr, sw, mw. auto 10.
    - intros e [= <-]. now right. }
  destruct (is_zero (fdiv mw (Z2F 1000))) eqn:Zw; cbn [mbind result_bind].
  { repeat split; try discriminate; try tauto.
    - intros _. exists sr, mr, sw, mw. auto 10.
    - intros e [= <-]. now right. }
  repeat split; try discriminate; try tauto.
  intros (sr' & mr' & sw' & mw' & [= <-] & [= <-] & [= <-] & [= <-] & [?|?]);
    congruence.
Qed.

Lemma CalculateIOBandwidth_errors_witness :
  CalculateIOBandwidth (split_ws (diskstats_row "sda" "256" "n/a" "128" "0"))
    = Raise ValueError
  /\ CalculateIOBandwidth (split_ws (diskstats_row "sda" "256" "2000" "128" "0"))
     = Raise ZeroDivisionError.
Proof.
  split.
  - apply (proj1 (CalculateIOBandwidth_errors
             (split_ws (diskstats_row "sda" "256" "n/a" "128" "0"))
             "256" "n/a" "128" "0" eq_refl eq_refl eq_refl eq_refl)).
    exists "n/a"%string. split; [apply list_elem_of_In; simpl; auto | reflexivity].
  - apply (proj1 (proj2 (CalculateIOBandwidth_errors
             (split_ws (diskstats_row "sda" "256" "2000" "128" "0"))
             "256" "2000" "128" "0" eq_refl eq_refl eq_refl eq_refl))).
    exists (Z2F 256), (Z2F 2000), (Z2F 128), (S754_zero false).
    repeat split; try reflexivity. now right.
Defined.

(** X9.  Of a row with at least 11 fields [CalculateIOBandwidth] uses
    the fields 5, 6, 9 and 10 and nothing else: the device name, the
    other counters and any further fields do not matter. *)
Theorem CalculateIOBandwidth_fields_used (fields fields' : list string) :
  (11 <= length fields)%nat -> (11 <= length fields')%nat ->
  fields !! 5%nat = fields' !! 5%nat -> fields !! 6%nat = fields' !! 6%nat ->
  fields !! 9%nat = fields' !! 9%nat -> fields !! 10%nat = fields' !! 10%nat ->
  CalculateIOBandwidth fields = CalculateIOBandwidth fields'.
Proof.
  intros Hlen Hlen' E5 E6 E9 E10.
  destruct (eleven_fields fields Hlen) as (s5 & s6 & s9 & s10 & H5 & H6 & H9 & H10).
  rewrite (CalculateIOBandwidth_eval _ _ _ _ _ H5 H6 H9 H10).
  rewrite E5 in H5. rewrite E6 in H6. rewrite E9 in H9. rewrite E10 in H10.
  now rewrite (CalculateIOBandwidth_eval _ _ _ _ _ H5 H6 H9 H10).
Qed.

Lemma CalculateIOBandwidth_fields_used_witness :
  CalculateIOBandwidth (split_ws (diskstats_row "sda" "256" "2000" "128" "1000"))
    = CalculateIOBandwidth
        ["x"; "x"; "x"; "x"; "x"; "256"; "2000"; "x"; "x"; "128"; "1000"]%string.
Proof.
  apply (CalculateIOBandwidth_fields_used
           (split_ws (diskstats_row "sda" "256" "2000" "128" "1000"))
           ["x"; "x"; "x"; "x"; "x"; "256"; "2000"; "x"; "x"; "128"; "1000"]%string);
    try reflexivity; simpl; lia.
Defined.

(** ** Outcomes of the scan of the disk file *)

Lemma for_each_app {S X : Type} (xs ys : list X) (body : X -> S -> result S) (s : S) :
  for_each (xs ++ ys) body s = (s' ← for_each xs body s; for_each ys body s').
Proof.
  revert s. induction xs as [|x xs IH]; intros s; [reflexivity|].
  cbn [app for_each]. destruct (body x s) as [s1|e]; cbn [mbind result_bind];
    [apply IH | reflexivity].
Qed.

Lemma scan_line_monitored disks line st :
  monitored disks line ->
  scan_line disks line st
    = (bw ← CalculateIOBandwidth (split_ws line); Ok (Some bw)).
Proof.
  intros (name & Hname & Hin). unfold scan_line.
  rewrite (getitem_at _ 2 name ltac:(lia) Hname). cbn [mbind result_bind].
  rewrite bool_decide_eq_true_2 by exact Hin. reflexivity.
Qed.

Lemma not_monitored_name disks line :
  ~ short_line line -> ~ monitored disks line ->
  exists name, split_ws line !! 2%nat = Some name /\ name ∉ disks.
Proof.
  intros Hlong Hnot. unfold short_line in Hlong.
  destruct (lookup_lt_is_Some_2 (split_ws line) 2 ltac:(lia)) as [name Hname].
  exists name. split; [exact Hname|]. intros Hin. apply Hnot. exists name. auto.
Qed.

(** Every line of a completed scan has a field 2, and the rates of every
    monitored line compute. *)
Lemma scan_all_ok disks : forall ls st v,
  for_each ls (scan_line disks) st = Ok v ->
  forall l, l ∈ ls ->
    ~ short_line l
    /\ (monitored disks l -> exists bw, CalculateIOBandwidth (split_ws l) = Ok bw).
Proof.
  induction ls as [|l0 ls IH]; intros st v Hrun l Hin; [inversion Hin|].
  cbn [for_each] in Hrun.
  destruct (scan_line disks l0 st) as [st1|e] eqn:Hl0; cbn [mbind result_bind] in Hrun;
    [|discriminate].
  apply elem_of_cons in Hin as [->|Hin]; [|exact (IH _ _ Hrun l Hin)].
  destruct (scan_line_Ok_inv _ _ _ _ Hl0) as [(Hm & bw & Hbw & _) | (Hnm & Hlong & _)].
  - split; [|eauto]. intros Hshort. destruct Hm as (name & Hname & _).
    unfold short_line in Hshort. pose proof (lookup_lt_Some _ _ _ Hname). lia.
  - split; [exact Hlong | tauto].
Qed.

Lemma scan_total disks : forall ls st,
  (forall l, l ∈ ls ->
     ~ short_line l
     /\ (monitored disks l -> exists bw, CalculateIOBandwidth (split_ws l) = Ok bw)) ->
  exists v, for_each ls (scan_line disks) st = Ok v.
Proof.
  induction ls as [|l0 ls IH]; intros st Hall; [exists st; reflexivity|].
  cbn [for_each].
  destruct (Hall l0 ltac:(left)) as [Hlong Hcomp].
  assert (Hrest : forall st1, exists v, for_each ls (scan_line disks) st1 = Ok v).
  { intros st1. apply IH. intros l Hl. apply Hall. now right. }
  destruct (decide (monitored disks l0)) as [Hm|Hnm].
  - destruct (Hcomp Hm) as [bw Hbw].
    rewrite (scan_line_monitored _ _ _ Hm), Hbw. cbn [mbind result_bind]. apply Hrest.
  - destruct (not_monitored_name _ _ Hlong Hnm) as (name & Hname & Hnot).
    rewrite (scan_line_skip _ _ _ _ Hname Hnot). cbn [mbind result_bind]. apply Hrest.
Qed.

(** X10.  [GetIOData] returns rates exactly when every line of the file
    has at least 3 fields, the rates of every monitored line compute,
    and some line is monitored; what it returns are the rates of the
    last monitored line. *)
Theorem io_bandwidth_of_success (disks : list string) (text : string)
    (bw : list float) :
  io_bandwidth_of disks text = Ok bw <->
  (forall l, l ∈ lines text -> ~ short_line l)
  /\ (forall l, l ∈ lines text -> monitored disks l ->
        exists bw', CalculateIOBandwidth (split_ws l) = Ok bw')
  /\ (exists pre row post,
        lines text = pre ++ row :: post
        /\ monitored disks row
        /\ (forall l, l ∈ post -> ~ monitored disks l)
        /\ CalculateIOBandwidth (split_ws row) = Ok bw).
Proof.
  split.
  - intros Hok. split; [|split].
    + intros l Hl. unfold io_bandwidth_of in Hok.
      destruct (for_each (lines text) (scan_line disks) None) as [v|e] eqn:Hscan;
        [|discriminate].
      exact (proj1 (scan_all_ok _ _ _ _ Hscan l Hl)).
    + intros l Hl. unfold io_bandwidth_of in Hok.
      destruct (for_each (lines text) (scan_line disks) None) as [v|e] eqn:Hscan;
        [|discriminate].
      exact (proj2 (scan_all_ok _ _ _ _ Hscan l Hl)).
    + now apply io_bandwidth_of_Ok_inv.
  - intros (Hlong & Hcomp & pre & row & post & Hsplit & Hm & Hpost & Hbw).
    unfold io_bandwidth_of. rewrite Hsplit, for_each_app.
    destruct (scan_total disks pre None) as [v Hv].
    { intros l Hl. split; [apply Hlong | apply Hcomp]; rewrite Hsplit;
        apply elem_of_app; now left. }
    rewrite Hv. cbn [mbind result_bind for_each].
    rewrite (scan_line_monitored _ _ _ Hm), Hbw. cbn [mbind result_bind].
    rewrite (scan_no_match disks post (Some bw)); [reflexivity|].
    intros l Hl. apply not_monitored_name; [|now apply Hpost].
    apply Hlong. rewrite Hsplit. apply elem_of_app. right. now right.
Qed.

Lemma scan_line_error disks line st e :
  scan_line disks line st = Raise e ->
  e = IndexError \/ e = ValueError \/ e = ZeroDivisionError.
Proof.
  unfold scan_line.
  destruct (getitem (split_ws line) 2) as [name|e'] eqn:Hget; cbn [mbind result_bind].
  - destruct (bool_decide (name ∈ disks)); [|discriminate].
    destruct (CalculateIOBandwidth (split_ws line)) as [bw|e'] eqn:Hbw;
      cbn [mbind result_bind]; [discriminate|].
    intros [= <-]. exact (CalculateIOBandwidth_raises _ _ Hbw).
  - unfold getitem in Hget. intros [= <-]. left.
    destruct (norm_index _ _); [|congruence]. destruct (_ !! _); congruence.
Qed.

Lemma scan_error disks : forall ls st e,
  for_each ls (scan_line disks) st = Raise e ->
  e = IndexError \/ e = ValueError \/ e = ZeroDivisionError.
Proof.
  induction ls as [|l ls IH]; intros st e; cbn [for_each]; [discriminate|].
  destruct (scan_line disks l st) as [st1|e'] eqn:Hl; cbn [mbind result_bind].
  - apply IH.
  - intros [= <-]. exact (scan_line_error _ _ _ _ Hl).
Qed.

(** X11.  [GetIOData] fails on the unbound local, the way a disk that is
    not in the file shows, exactly when every line has at least 3
    fields and no line is monitored; an empty file is such a file. *)
Theorem io_bandwidth_of_not_found (disks : list string) (text : string) :
  io_bandwidth_of disks text = Raise UnboundLocalError <->
  forall l, l ∈ lines text -> ~ short_line l /\ ~ monitored disks l.
Proof.
  unfold io_bandwidth_of. split.
  - intros Hraise l Hl.
    destruct (for_each (lines text) (scan_line disks) None) as [v|e] eqn:Hscan;
      cbn [mbind result_bind] in Hraise.
    + split; [exact (proj1 (scan_all_ok _ _ _ _ Hscan l Hl))|].
      destruct (scan_result _ _ _ _ Hscan)
        as [[_ Hnone] | (_ & _ & _ & bw & _ & _ & _ & _ & ->)];
        [now apply Hnone | discriminate].
    + injection Hraise as ->.
      destruct (scan_error _ _ _ _ Hscan) as [?|[?|?]]; discriminate.
  - intros Hall. rewrite (scan_no_match disks (lines text) None); [reflexivity|].
    intros l Hl. destruct (Hall l Hl). now apply not_monitored_name.
Qed.

Example io_bandwidth_of_empty_file :
  io_bandwidth_of DISKS_TO_MONITOR EmptyString = Raise UnboundLocalError.
Proof. reflexivity. Qed.

(** ** Decimal literals: printing and reading back *)

Lemma all_digits_uint d : all_digits (NilEmpty.string_of_uint d) = true.
Proof. induction d; cbn; auto. Qed.

Lemma to_uint_nonnil n : N.to_uint n <> Nil.
Proof.
  destruct n as [|p]; [discriminate|]. cbn. apply DecimalPos.Unsigned.to_uint_nonnil.
Qed.

Lemma decimal_uint n : decimal n = NilEmpty.string_of_uint (N.to_uint (Z.to_N n)).
Proof.
  unfold decimal, NilZero.string_of_uint.
  pose proof (to_uint_nonnil (Z.to_N n)). destruct (N.to_uint (Z.to_N n)); congruence.
Qed.

Lemma all_digits_decimal n : all_digits (decimal n) = true.
Proof. rewrite decimal_uint. apply all_digits_uint. Qed.

Lemma occurs_digits c s :
  is_digit c = false -> all_digits s = true -> occurs c s = false.
Proof.
  intros Hc. induction s as [|c' s IH]; cbn; [reflexivity|].
  intros [Hc' Hs]%andb_prop. rewrite (IH Hs), orb_false_r.
  apply Ascii.eqb_neq. intros ->. congruence.
Qed.

Lemma is_digit_not_space c : is_digit c = true -> py_isspace c = false.
Proof.
  unfold is_digit, py_isspace. cbv zeta. generalize (N_of_ascii c). intros n Hn.
  apply andb_prop in Hn as [H1 H2]. apply N.leb_le in H1, H2.
  apply orb_false_iff. split; [apply andb_false_iff; right; apply N.leb_gt; lia | apply N.eqb_neq; lia].
Qed.

Lemma lstrip_digits s : all_digits s = true -> lstrip s = s.
Proof.
  destruct s as [|c s]; cbn; [reflexivity|].
  intros [Hc _]%andb_prop. now rewrite (is_digit_not_space c Hc).
Qed.

Lemma all_digits_rev_app s t :
  all_digits (String.rev_app s t) = all_digits s && all_digits t.
Proof.
  revert t. induction s as [|c s IH]; intros t; cbn; [reflexivity|].
  rewrite IH. cbn. destruct (is_digit c), (all_digits s); reflexivity.
Qed.

Lemma append_cons c (s t : string) : (String c s +:+ t) = String c (s +:+ t).
Proof. reflexivity. Qed.

Lemma append_empty_r (s : string) : (s +:+ EmptyString) = s.
Proof. induction s as [|c s IH]; [reflexivity|]. now rewrite append_cons, IH. Qed.

Lemma rev_app_rev_app s t u :
  String.rev_app (String.rev_app s t) u = String.rev_app t (s +:+ u).
Proof.
  revert t u. induction s as [|c s IH]; intros t u; [reflexivity|].
  cbn [String.rev_app]. rewrite IH. reflexivity.
Qed.

Lemma rev_rev s : String.rev (String.rev s) = s.
Proof. unfold String.rev. rewrite rev_app_rev_app. cbn. apply append_empty_r. Qed.

Lemma strip_digits s : all_digits s = true -> strip s = s.
Proof.
  intros Hs. unfold strip, rstrip. rewrite (lstrip_digits s Hs).
  rewrite lstrip_digits; [apply rev_rev|].
  unfold String.rev. rewrite all_digits_rev_app, Hs. reflexivity.
Qed.

Lemma take_sign_digits s : all_digits s = true -> take_sign s = (false, s).
Proof.
  destruct s as [|c s]; [reflexivity|]. cbn [all_digits].
  intros [Hc _]%andb_prop.
  destruct c as [[] [] [] [] [] [] [] []]; try discriminate Hc; reflexivity.
Qed.


Lemma take_digits_digit c rest acc count :
  is_digit c = true ->
  take_digits (String c rest) acc count
    = take_digits rest (10 * acc + digit_val c) (count + 1).
Proof. intros Hc. cbn [take_digits]. now rewrite Hc. Qed.

Lemma take_digits_uint_pos d : forall rest (acc : positive) (count : Z),
  take_digits (NilEmpty.string_of_uint d +:+ rest) (Zpos acc) count
    = take_digits rest (Zpos (Pos.of_uint_acc d acc)) (count + Z.of_nat (nb_digits d)).
Proof.
  induction d; intros rest acc count;
    cbn [NilEmpty.string_of_uint nb_digits Pos.of_uint_acc];
    [change (EmptyString +:+ rest) with rest; f_equal; lia
    | rewrite append_cons, take_digits_digit by reflexivity;
      match goal with
      | |- take_digits _ ?a _ = take_digits _ (Zpos (Pos.of_uint_acc _ ?b)) _ =>
          replace a with (Zpos b)
            by (match goal with
                | |- context [digit_val ?c] =>
                    let v := eval vm_compute in (digit_val c) in
                    change (digit_val c) with v
                end; lia)
      end;
      rewrite IHd; f_equal; lia ..].
Qed.

Lemma take_digits_uint d : forall rest (count : Z),
  take_digits (NilEmpty.string_of_uint d +:+ rest) 0 count
    = take_digits rest (Z.of_N (Pos.of_uint d)) (count + Z.of_nat (nb_digits d)).
Proof.
  induction d; intros rest count;
    cbn [NilEmpty.string_of_uint nb_digits Pos.of_uint];
    [change (EmptyString +:+ rest) with rest; f_equal; lia
    | rewrite append_cons, take_digits_digit by reflexivity;
      first [ change (10 * 0 + digit_val "0") with 0; rewrite IHd; f_equal; lia
            | match goal with
              | |- take_digits _ ?a _
                   = take_digits _ (Z.of_N (N.pos (Pos.of_uint_acc _ ?b))) _ =>
                  change a with (Zpos b)
              end;
              rewrite take_digits_uint_pos; f_equal; lia ] ..].
Qed.

Lemma nb_digits_pos n : (0 < nb_digits (N.to_uint n))%nat.
Proof.
  pose proof (to_uint_nonnil n). destruct (N.to_uint n); cbn; [congruence|lia..].
Qed.

Lemma take_digits_decimal n rest :
  0 <= n ->
  exists count, 0 < count
    /\ take_digits (decimal n +:+ rest) 0 0 = take_digits rest n count.
Proof.
  intros Hn. rewrite decimal_uint, take_digits_uint.
  change (Pos.of_uint ?d) with (N.of_uint d).
  rewrite DecimalN.Unsigned.of_to, Z2N.id by exact Hn.
  eexists. split; [|reflexivity].
  pose proof (nb_digits_pos (Z.to_N n)). lia.
Qed.

Lemma py_int_decimal n : 0 <= n -> py_int (decimal n) = Ok n.
Proof.
  intros Hn. unfold py_int.
  rewrite strip_digits, take_sign_digits by apply all_digits_decimal.
  destruct (take_digits_decimal n EmptyString Hn) as (count & Hcount & Heq).
  rewrite append_empty_r in Heq. rewrite Heq. cbn [take_digits].
  replace (0 <? count) with true by lia. reflexivity.
Qed.

Lemma py_float_decimal n : 0 <= n -> py_float (decimal n) = Ok (Z2F n).
Proof.
  intros Hn. unfold py_float.
  rewrite strip_digits, take_sign_digits by apply all_digits_decimal.
  assert (Hword : forall w : string,
            (match w with String c _ => is_digit c | EmptyString => true end) = false ->
            String.eqb (lower_str (decimal n)) w = false).
  { intros w Hw. pose proof (all_digits_decimal n) as Hd.
    destruct (decimal n) as [|c s]; destruct w as [|c' w']; try discriminate; try reflexivity.
    cbn [all_digits] in Hd. apply andb_prop in Hd as [Hc _].
    cbn [lower_str String.eqb].
    replace (Ascii.eqb (lower c) c') with false; [reflexivity|].
    symmetry. apply Ascii.eqb_neq. intros <-.
    unfold lower, is_digit in *. cbv zeta in *.
    destruct ((65 <=? N_of_ascii c)%N && (N_of_ascii c <=? 90)%N) eqn:Hup.
    - apply andb_prop in Hup as [H1 H2]. apply andb_prop in Hc as [H3 H4].
      apply N.leb_le in H1, H2, H3, H4. lia.
    - congruence. }
  rewrite !Hword by reflexivity. cbn [orb].
  destruct (take_digits_decimal n EmptyString Hn) as (count & Hcount & Heq).
  rewrite append_empty_r in Heq. rewrite Heq. cbn [take_digits].
  replace (0 <? count + 0) with true by lia.
  cbn [take_exponent]. f_equal.
  unfold float_of_decimal, Z2F. destruct n as [|p|p]; [reflexivity| |lia].
  cbn [Z.sub Z.opp Z.add]. rewrite Z.mul_1_r. reflexivity.
Qed.

(** ** The CPU reader on the kernel's layout *)

Lemma rev_app_append s t u :
  String.rev_app (s +:+ t) u = String.rev_app t (String.rev_app s u).
Proof.
  revert u. induction s as [|c s IH]; intros u; [reflexivity|].
  rewrite append_cons. cbn [String.rev_app]. apply IH.
Qed.

Lemma rstrip_nl s : rstrip (s +:+ nl) = rstrip s.
Proof. unfold rstrip, String.rev. rewrite rev_app_append. reflexivity. Qed.

Lemma lstrip_digits_app s t :
  all_digits s = true -> s <> EmptyString -> lstrip (s +:+ t) = s +:+ t.
Proof.
  destruct s as [|c s]; [congruence|]. cbn [all_digits].
  intros [Hc _]%andb_prop _. rewrite append_cons. cbn [lstrip].
  now rewrite (is_digit_not_space c Hc).
Qed.

Lemma decimal_nonempty n : decimal n <> EmptyString.
Proof.
  rewrite decimal_uint. pose proof (to_uint_nonnil (Z.to_N n)).
  destruct (N.to_uint (Z.to_N n)); cbn; congruence.
Qed.

(** [int] does not mind the line feed that ends a line. *)
Lemma py_int_decimal_nl n : 0 <= n -> py_int (decimal n +:+ nl) = Ok n.
Proof.
  intros Hn.
  assert (Hstrip : strip (decimal n +:+ nl) = strip (decimal n)).
  { unfold strip.
    rewrite lstrip_digits_app by (apply all_digits_decimal || apply decimal_nonempty).
    rewrite rstrip_nl, (lstrip_digits (decimal n)) by apply all_digits_decimal.
    reflexivity. }
  transitivity (py_int (decimal n)); [|now apply py_int_decimal].
  unfold py_int. now rewrite Hstrip.
Qed.

Lemma readline_token tok s :
  occurs LF tok = false -> readline (tok +:+ s) = tok +:+ readline s.
Proof.
  induction tok as [|c tok IH]; [reflexivity|]. cbn [occurs].
  intros [Hc Htok]%orb_false_elim. rewrite !append_cons. cbn [readline].
  rewrite Hc. now rewrite IH.
Qed.

Lemma split_on_token sep tok s :
  occurs sep tok = false ->
  split_on sep (tok +:+ s)
    = match split_on sep s with
      | t :: ts => (tok +:+ t) :: ts
      | [] => [tok]
      end.
Proof.
  induction tok as [|c tok IH].
  - intros _. change (EmptyString +:+ s) with s.
    destruct (split_on sep s) eqn:E; [now apply split_on_nonempty in E|reflexivity].
  - cbn [occurs]. intros [Hc Htok]%orb_false_elim.
    rewrite append_cons. cbn [split_on]. rewrite Hc, (IH Htok).
    destruct (split_on sep s); reflexivity.
Qed.

Lemma occurs_decimal c n : is_digit c = false -> occurs c (decimal n) = false.
Proof. intros Hc. apply occurs_digits; [exact Hc | apply all_digits_decimal]. Qed.

Lemma readline_stat_counters counters rest :
  readline (stat_counters counters rest) = stat_counters counters EmptyString.
Proof.
  induction counters as [|c cs IH]; [reflexivity|].
  cbn [stat_counters]. rewrite !append_cons. cbn [readline].
  change (Ascii.eqb " " LF) with false. cbv iota.
  change (EmptyString +:+ ?x) with x.
  rewrite readline_token by (now apply occurs_decimal). now rewrite IH.
Qed.

(** The tokens after the label: the empty token between the two spaces,
    then one token per counter, the last one carrying the line feed. *)
Lemma split_stat_counters counters :
  exists toks,
    split_on " " (stat_counters counters EmptyString)
      = match counters with [] => [nl] | _ => EmptyString :: toks end
    /\ Forall2 (fun tok z => 0 <= z -> py_int tok = Ok z) toks counters.
Proof.
  induction counters as [|c cs IH].
  - exists []. split; [reflexivity | constructor].
  - destruct IH as (toks & Hsplit & Hall).
    cbn [stat_counters]. rewrite append_cons. cbn [split_on].
    change (Ascii.eqb " " " ") with true. cbv iota.
    change (EmptyString +:+ ?x) with x.
    rewrite split_on_token by (now apply occurs_decimal). rewrite Hsplit.
    destruct cs as [|c' cs'].
    + exists [decimal c +:+ nl]. split; [reflexivity|].
      constructor; [apply py_int_decimal_nl | constructor].
    + exists (decimal c :: toks). rewrite append_empty_r. split; [reflexivity|].
      constructor; [apply py_int_decimal | exact Hall].
Qed.

Lemma cpu_usage_counters (counters : list Z) (rest : string) :
  Forall (fun c => 0 <= c) counters ->
  cpu_usage (stat_text counters rest) = Ok (take 4 counters).
Proof.
  intros Hpos. unfold cpu_usage, cpu_tokens, stat_text.
  change ("cpu " +:+ ?x) with ("cpu" +:+ String " " x).
  rewrite readline_token by reflexivity. cbn [readline].
  change (Ascii.eqb " " LF) with false. cbv iota.
  rewrite readline_stat_counters.
  rewrite split_on_token by reflexivity. cbn [split_on].
  change (Ascii.eqb " " " ") with true. cbv iota.
  destruct (split_stat_counters counters) as (toks & Hsplit & Hall).
  rewrite Hsplit. unfold slice. change (6 - 2)%nat with 4%nat.
  apply mapM_Ok.
  assert (Hok : Forall2 (fun tok z => py_int tok = Ok z) toks counters).
  { clear Hsplit. induction Hall as [|tok z toks' cs' Htok Hall IH];
      [constructor|].
    inversion Hpos; subst. constructor; auto. }
  destruct counters as [|c cs].
  - constructor.
  - change (EmptyString +:+ EmptyString) with EmptyString.
    cbn [drop]. now apply Forall2_take.
Qed.


(** X12.  On a file whose first line is in the kernel's layout, with
    non-negative counters printed in decimal, [GetCPUData]'s parse gives
    back the first four counters (all of them when there are fewer),
    whatever follows the first line. *)
Theorem cpu_usage_stat_text (counters : list Z) (rest : string) :
  Forall (fun c => 0 <= c) counters ->
  cpu_usage (stat_text counters rest) = Ok (take 4 counters).
Proof. apply cpu_usage_counters. Qed.

Lemma cpu_usage_stat_text_witness :
  cpu_usage (stat_text [100; 0; 0; 300; 50; 7] "cpu0 1 2 3 4")
    = Ok (take 4 [100; 0; 0; 300; 50; 7]).
Proof.
  apply (cpu_usage_stat_text [100; 0; 0; 300; 50; 7] "cpu0 1 2 3 4").
  repeat constructor; lia.
Defined.

(** ** Rows of decimal counters *)

Lemma fexp_mono D D' : D <= D' -> fexp prec emax D <= fexp prec emax D'.
Proof. unfold fexp. lia. Qed.

Lemma binary_round_aux_canonical s m e l :
  0 < m -> 1 <= Zdigits2 m + e -> e <= fexp prec emax (Zdigits2 m + e) ->
  binary_round_aux prec emax s m e l = S754_infinity s
  \/ exists m' e', binary_round_aux prec emax s m e l = S754_finite s m' e'
       /\ Zpos (digits2_pos m') = 53 /\ Zdigits2 m + e - 53 <= e'.
Proof.
  intros Hm HD He. unfold binary_round_aux.
  assert (HD' : emin prec emax < Zdigits2 m + e)
    by (change (emin prec emax) with (-1074); lia).
  pose proof (shr_fexp_pos m e l Hm HD') as [Hpos1 _].
  pose proof (shr_fexp_exact m e l Hm HD') as [HD1 He1].
  destruct (shr_fexp prec emax m e l) as [r1 e1]. simpl fst in *. simpl snd in *.
  set (m2 := round_nearest_even (shr_m r1) (loc_of_shr_record r1)).
  pose proof (round_nearest_even_ge (shr_m r1) (loc_of_shr_record r1)) as Hge.
  fold m2 in Hge.
  pose proof (Zdigits2_mono _ _ Hpos1 Hge) as Hmono.
  assert (HD2 : emin prec emax < Zdigits2 m2 + e1)
    by (change (emin prec emax) with (-1074); lia).
  pose proof (shr_fexp_pos m2 e1 loc_Exact ltac:(lia) HD2) as [Hpos2 _].
  pose proof (shr_fexp_exact m2 e1 loc_Exact ltac:(lia) HD2) as [HD3 He2].
  destruct (shr_fexp prec emax m2 e1 loc_Exact) as [r2 e2]. simpl fst in *. simpl snd in *.
  destruct (shr_m r2) as [|q|q] eqn:Hq; try lia.
  destruct (e2 <=? emax - prec); [right|now left].
  exists q, e2. split; [reflexivity|].
  change (Zdigits2 (Zpos q)) with (Zpos (digits2_pos q)) in HD3.
  pose proof (fexp_mono (Zdigits2 m + e) (Zdigits2 m2 + e1) ltac:(lia)) as Hmon.
  unfold fexp, emin, prec, emax in *. lia.
Qed.

Lemma Z2F_canonical (p : positive) :
  Z2F (Zpos p) = S754_infinity false
  \/ exists m e, Z2F (Zpos p) = S754_finite false m e
       /\ Zpos (digits2_pos m) = 53 /\ -52 <= e.
Proof.
  unfold Z2F, binary_normalize, binary_round, shl_align.
  rewrite Z.add_0_r, Z.sub_0_r.
  assert (Hd : 1 <= Zpos (digits2_pos p)) by lia.
  set (F := fexp prec emax (Z.pos (digits2_pos p))).
  assert (HF : F = Z.max (Zpos (digits2_pos p) - 53) (-1074)) by reflexivity.
  destruct F as [|d|d] eqn:HFd.
  - destruct (binary_round_aux_canonical false (Zpos p) 0 loc_Exact)
      as [H | (m & e & H & Hm & He)]; [lia | simpl Zdigits2; lia | | now left |].
    + simpl Zdigits2. rewrite Z.add_0_r. fold F. lia.
    + right. exists m, e. simpl Zdigits2 in He. repeat split; auto; lia.
  - destruct (binary_round_aux_canonical false (Zpos p) 0 loc_Exact)
      as [H | (m & e & H & Hm & He)]; [lia | simpl Zdigits2; lia | | now left |].
    + simpl Zdigits2. rewrite Z.add_0_r. fold F. lia.
    + right. exists m, e. simpl Zdigits2 in He. repeat split; auto; lia.
  - assert (HD : Zdigits2 (Zpos (Pos.iter xO p d)) + Zneg d = Zpos (digits2_pos p)).
    { simpl Zdigits2. rewrite digits2_pos_iter_xO. lia. }
    destruct (binary_round_aux_canonical false (Zpos (Pos.iter xO p d))
                (Zneg d) loc_Exact)
      as [H | (m & e & H & Hm & He)]; [lia | lia | | now left |].
    + rewrite HD. fold F. lia.
    + right. exists m, e. rewrite HD in He. repeat split; auto; lia.
Qed.

Lemma Z2F_1000 : Z2F 1000 = S754_finite false 8796093022208000 (-43).
Proof. reflexivity. Qed.

Lemma fdiv_1000_nonzero s m e :
  Zpos (digits2_pos m) = 53 -> -52 <= e ->
  is_zero (fdiv (S754_finite s m e) (Z2F 1000)) = false.
Proof.
  intros Hm He. rewrite Z2F_1000. unfold fdiv, SFdiv, SFdiv_core_binary.
  cbv beta iota zeta.
  change (Zdigits2 (Zpos m)) with (Zpos (digits2_pos m)). rewrite Hm.
  change (Zdigits2 8796093022208000) with 53.
  replace (Z.min (fexp prec emax (53 + e - (53 + -43))) (e - -43)) with (e - 10)
    by (unfold fexp, emin, prec, emax; lia).
  replace (e - -43 - (e - 10)) with 53 by lia. cbv iota.
  pose proof (Z_div_mod (Z.shiftl (Zpos m) 53) 8796093022208000 eq_refl) as Hdiv.
  destruct (Z.div_eucl (Z.shiftl (Zpos m) 53) 8796093022208000) as [q r].
  destruct Hdiv as [Heq Hr].
  assert (Hbig : 2 ^ 52 <= Zpos m).
  { assert (Hlog : Z.log2 (Zpos m) = 52).
    { pose proof (Zdigits2_log2 (Zpos m) eq_refl) as H. simpl Zdigits2 in H. lia. }
    pose proof (Z.log2_spec (Zpos m) eq_refl) as [Hlo _]. now rewrite Hlog in Hlo. }
  rewrite Z.shiftl_mul_pow2 in Heq by lia.
  assert (Hq : 0 < q).
  { change (2 ^ 52) with 4503599627370496 in Hbig.
    change (2 ^ 53) with 9007199254740992 in Heq. lia. }
  apply binary_round_aux_nonzero; [exact Hq|].
  rewrite Zdigits2_log2 by exact Hq.
  pose proof (Z.log2_nonneg q). change (emin prec emax) with (-1074). lia.
Qed.

Lemma ms_seconds_nonzero (ms : Z) :
  0 < ms -> is_zero (fdiv (Z2F ms) (Z2F 1000)) = false.
Proof.
  intros Hms. destruct ms as [|p|p]; try lia.
  destruct (Z2F_canonical p) as [-> | (m & e & -> & Hm & He)]; [reflexivity|].
  now apply fdiv_1000_nonzero.
Qed.

Lemma CalculateIOBandwidth_decimal (io_fields : list string)
    (sectors_read ms_read sectors_written ms_write : Z) :
  0 <= sectors_read -> 0 <= ms_read -> 0 <= sectors_written -> 0 <= ms_write ->
  io_fields !! 5%nat = Some (decimal sectors_read) ->
  io_fields !! 6%nat = Some (decimal ms_read) ->
  io_fields !! 9%nat = Some (decimal sectors_written) ->
  io_fields !! 10%nat = Some (decimal ms_write) ->
  CalculateIOBandwidth io_fields =
    if (ms_read =? 0) || (ms_write =? 0) then Raise ZeroDivisionError
    else Ok [fmul (fdiv (Z2F 1) (fdiv (Z2F ms_read) (Z2F 1000)))
                  (fdiv (fmul (Z2F sectors_read) (Z2F 512)) (Z2F 128));
             fmul (fdiv (Z2F 1) (fdiv (Z2F ms_write) (Z2F 1000)))
                  (fdiv (fmul (Z2F sectors_written) (Z2F 512)) (Z2F 128))].
Proof.
  intros Hsr Hmr Hsw Hmw H5 H6 H9 H10.
  rewrite (CalculateIOBandwidth_eval _ _ _ _ _ H5 H6 H9 H10).
  rewrite !py_float_decimal by assumption. cbn [mbind result_bind].
  unfold float_div.
  destruct (Z.eqb_spec ms_read 0) as [->|Hr]; [reflexivity|].
  rewrite (ms_seconds_nonzero ms_read) by lia. cbn [mbind result_bind orb].
  destruct (Z.eqb_spec ms_write 0) as [->|Hw]; [reflexivity|].
  rewrite (ms_seconds_nonzero ms_write) by lia. reflexivity.
Qed.


(** X13.  On a row whose fields 5, 6, 9 and 10 are non-negative counters
    printed in decimal, [CalculateIOBandwidth] fails with a division by
    zero when the milliseconds read or the milliseconds written are 0,
    as they are on a disk that has not been read or not been written
    since boot, and otherwise returns the two rates, however large the
    counters are. *)
Theorem CalculateIOBandwidth_counters (io_fields : list string)
    (sectors_read ms_read sectors_written ms_write : Z) :
  0 <= sectors_read -> 0 <= ms_read -> 0 <= sectors_written -> 0 <= ms_write ->
  io_fields !! 5%nat = Some (decimal sectors_read) ->
  io_fields !! 6%nat = Some (decimal ms_read) ->
  io_fields !! 9%nat = Some (decimal sectors_written) ->
  io_fields !! 10%nat = Some (decimal ms_write) ->
  CalculateIOBandwidth io_fields =
    if (ms_read =? 0) || (ms_write =? 0) then Raise ZeroDivisionError
    else Ok [fmul (fdiv (Z2F 1) (fdiv (Z2F ms_read) (Z2F 1000)))
                  (fdiv (fmul (Z2F sectors_read) (Z2F 512)) (Z2F 128));
             fmul (fdiv (Z2F 1) (fdiv (Z2F ms_write) (Z2F 1000)))
                  (fdiv (fmul (Z2F sectors_written) (Z2F 512)) (Z2F 128))].
Proof. apply CalculateIOBandwidth_decimal. Qed.

Lemma CalculateIOBandwidth_counters_witness :
  CalculateIOBandwidth
    (split_ws (diskstats_row "sda" (decimal 256) (decimal 2000) (decimal 128)
                 (decimal 0)))
    = if (2000 =? 0) || (0 =? 0) then Raise ZeroDivisionError
      else Ok [fmul (fdiv (Z2F 1) (fdiv (Z2F 2000) (Z2F 1000)))
                    (fdiv (fmul (Z2F 256) (Z2F 512)) (Z2F 128));
               fmul (fdiv (Z2F 1) (fdiv (Z2F 0) (Z2F 1000)))
                    (fdiv (fmul (Z2F 128) (Z2F 512)) (Z2F 128))].
Proof.
  apply (CalculateIOBandwidth_counters
           (split_ws (diskstats_row "sda" (decimal 256) (decimal 2000)
                        (decimal 128) (decimal 0)))
           256 2000 128 0); try lia; reflexivity.
Defined.

(** ** Time stamps *)

Lemma Zpos_iter_xO p d : Zpos (Pos.iter xO p d) = Zpos p * 2 ^ Zpos d.
Proof.
  induction d as [|d IH] using Pos.peano_ind.
  - cbn. lia.
  - rewrite Pos.iter_succ, Pos2Z.inj_succ, Z.pow_succ_r by lia.
    rewrite Pos2Z.inj_xO, IH. lia.
Qed.

Lemma binary_round_aux_exact s m e :
  fexp prec emax (Zpos (digits2_pos m) + e) = e -> e <= emax - prec ->
  binary_round_aux prec emax s (Zpos m) e loc_Exact = S754_finite s m e.
Proof.
  intros Hf He. unfold binary_round_aux, shr_fexp.
  cbn [Zdigits2 shr_record_of_loc]. rewrite Hf, Z.sub_diag. cbn [shr].
  cbn [shr_m loc_of_shr_record round_nearest_even Zdigits2 shr_record_of_loc].
  rewrite Hf, Z.sub_diag. cbn [shr shr_m].
  now rewrite (proj2 (Z.leb_le _ _) He).
Qed.

(** Integers below [2^53] are doubles. *)
Lemma Z2F_exact (p : positive) :
  Zpos p < 2 ^ 53 ->
  exists m e, Z2F (Zpos p) = S754_finite false m e
    /\ e <= 0 /\ Zpos m = Zpos p * 2 ^ (- e).
Proof.
  intros Hp.
  assert (Hd : Zpos (digits2_pos p) <= 53).
  { change (Zdigits2 (Zpos p) <= 53). rewrite Zdigits2_log2 by lia.
    pose proof (proj1 (Z.log2_lt_pow2 (Zpos p) 53 ltac:(lia)) Hp). lia. }
  unfold Z2F, binary_normalize, binary_round, shl_align.
  rewrite Z.add_0_r, Z.sub_0_r.
  set (F := fexp prec emax (Z.pos (digits2_pos p))).
  assert (HF : F = Z.max (Zpos (digits2_pos p) - 53) (-1074)) by reflexivity.
  destruct F as [|d|d] eqn:HFd; [|lia|].
  - exists p, 0. rewrite binary_round_aux_exact.
    + split; [reflexivity|]. split; [lia|]. cbn. lia.
    + rewrite Z.add_0_r. fold F. lia.
    + unfold emax, prec. lia.
  - exists (Pos.iter xO p d), (Zneg d). rewrite binary_round_aux_exact.
    + split; [reflexivity|]. split; [lia|]. apply Zpos_iter_xO.
    + rewrite digits2_pos_iter_xO. unfold fexp, emin, prec, emax. lia.
    + unfold emax, prec. lia.
Qed.

Lemma round_half_even_exact n d : 0 < d -> round_half_even (n * d) d = n.
Proof.
  intros Hd. unfold round_half_even.
  rewrite Z.mod_mul, Z.div_mul by lia.
  assert (Hlt : (2 * 0 ?= d) = Lt) by (apply Z.compare_lt_iff; lia).
  now rewrite Hlt.
Qed.

Lemma string_length_decimal n : (0 < String.length (decimal n))%nat.
Proof.
  pose proof (decimal_nonempty n). destruct (decimal n); [congruence|cbn; lia].
Qed.

Lemma fixed_point_0 n : fixed_point 0 n = decimal n.
Proof.
  unfold fixed_point. pose proof (string_length_decimal n).
  replace (1 - String.length (decimal n))%nat with 0%nat by lia. reflexivity.
Qed.

Lemma format_f_0_integer (t : Z) :
  0 <= t < 2 ^ 53 -> format_f 0 (Z2F t) = decimal t.
Proof.
  intros [Hlo Hhi]. destruct t as [|p|p]; [reflexivity| |lia].
  destruct (Z2F_exact p Hhi) as (m & e & -> & He & Hm).
  unfold format_f. change (EmptyString +:+ ?x) with x.
  rewrite fixed_point_0. f_equal. unfold scaled.
  destruct e as [|k|k]; [|lia|].
  - cbn in Hm. cbn. lia.
  - cbn [Z.of_nat]. rewrite Z.pow_0_r, Z.mul_1_r, Hm.
    apply round_half_even_exact. cbn [Z.opp]. lia.
Qed.

Lemma timestamp_exact (t : Z) : 0 <= t < 2 ^ 53 -> timestamp t = Ok t.
Proof.
  intros Ht. unfold timestamp, time_time.
  rewrite format_f_0_integer by exact Ht. apply py_int_decimal. lia.
Qed.

(** X14.  The idiom [int('%.0f' % time.time())] reads the clock back
    exactly, for every clock value from 0 up to [2^53]: printing with no
    digits after the point and parsing the digits is a round trip. *)
Theorem timestamp_clock (t : Z) : 0 <= t < 2 ^ 53 -> timestamp t = Ok t.
Proof. apply timestamp_exact. Qed.

Lemma timestamp_clock_witness : timestamp 1478260000 = Ok 1478260000.
Proof. apply (timestamp_clock 1478260000). vm_compute. split; congruence. Defined.

(** ** The run *)

Lemma GetStatistics_clock proc t v t' :
  GetStatistics proc t = Ok (v, t') -> t' = t + 4.
Proof.
  rewrite GetStatistics_run.
  destruct (GetCPUStats proc t) as [[cpu t1]|e] eqn:Hc; [|discriminate].
  pose proof (GetCPUStats_clock _ _ _ _ Hc) as ->.
  destruct (GetIOReadStats proc (t + SAMPLE_INTERVAL)) as [[[ior iow] t2]|e]
    eqn:Hio; [|discriminate].
  pose proof (GetIOReadStats_clock _ _ _ _ Hio) as ->.
  intros [= _ <-]. unfold SAMPLE_INTERVAL. lia.
Qed.

Lemma tick_line_Ok proc t k line :
  tick_line proc t k = Ok line ->
  exists cpu ior iow,
    GetStatistics proc (t + 6 * Z.of_nat k)
      = Ok (cpu, ior, iow, t + 6 * Z.of_nat k + 4)
    /\ line = status_line cpu ior iow.
Proof.
  unfold tick_line.
  destruct (GetStatistics proc (t + 6 * Z.of_nat k)) as [[[[cpu ior] iow] t1]|e] eqn:H;
    [|discriminate].
  intros [= <-]. exists cpu, ior, iow. split; [|reflexivity].
  now rewrite (GetStatistics_clock _ _ _ _ H).
Qed.

Lemma tick_line_Raise proc t k e :
  tick_line proc t k = Raise e ->
  GetStatistics proc (t + 6 * Z.of_nat k) = Raise e.
Proof.
  unfold tick_line.
  destruct (GetStatistics proc (t + 6 * Z.of_nat k)) as [[[[cpu ior] iow] t1]|e'];
    congruence.
Qed.

Section RunFacts.
Variable proc : string -> Z -> string.
Variable t : Z.
Hypothesis Hclock : 0 <= t /\ t + 66 < 2 ^ 53.
Variable line : nat -> string.

(** The loop from tick [i] on, when the [n] ticks that remain succeed. *)
Lemma Start_loop_completes : forall (n i fuel : nat) (out : list string),
  (i + n = 11)%nat -> (n < fuel)%nat ->
  (forall k, (i <= k < 11)%nat -> tick_line proc t k = Ok (line k)) ->
  Start_loop proc fuel t (6 * Z.of_nat i) (t + 6 * Z.of_nat i) out
    = Some (Exited 0 (t + 66) (out ++ (line <$> seq i n))).
Proof.
  induction n as [|n IH]; intros i fuel out Hi Hfuel Hticks;
    (destruct fuel as [|fuel]; [lia|]); cbn [Start_loop].
  - replace (6 * Z.of_nat i <=? RUN_TIME) with false by (unfold RUN_TIME; lia).
    unfold Stop. cbn [seq fmap list_fmap]. rewrite app_nil_r.
    do 2 f_equal. lia.
  - replace (6 * Z.of_nat i <=? RUN_TIME) with true by (unfold RUN_TIME; lia).
    destruct (tick_line_Ok _ _ _ _ (Hticks i ltac:(lia)))
      as (cpu & ior & iow & -> & Hline).
    rewrite timestamp_exact by lia.
    replace (t + 6 * Z.of_nat i + 4 + 2 - t) with (6 * Z.of_nat (S i)) by lia.
    replace (t + 6 * Z.of_nat i + 4 + 2) with (t + 6 * Z.of_nat (S i)) by lia.
    rewrite IH by (try lia; intros k Hk; apply Hticks; lia).
    rewrite <- Hline. cbn [seq fmap list_fmap]. now rewrite <- app_assoc.
Qed.

(** The loop from tick [i] on, when tick [i + n] is the first to fail. *)
Lemma Start_loop_fails : forall (n i fuel : nat) (out : list string) (e : exn),
  (i + n < 11)%nat -> (n < fuel)%nat ->
  (forall k, (i <= k < i + n)%nat -> tick_line proc t k = Ok (line k)) ->
  tick_line proc t (i + n) = Raise e ->
  Start_loop proc fuel t (6 * Z.of_nat i) (t + 6 * Z.of_nat i) out
    = Some (Uncaught e (out ++ (line <$> seq i n))).
Proof.
  induction n as [|n IH]; intros i fuel out e Hi Hfuel Hticks Hfail;
    (destruct fuel as [|fuel]; [lia|]); cbn [Start_loop];
    replace (6 * Z.of_nat i <=? RUN_TIME) with true by (unfold RUN_TIME; lia).
  - rewrite Nat.add_0_r in Hfail. rewrite (tick_line_Raise _ _ _ _ Hfail).
    cbn [seq fmap list_fmap]. now rewrite app_nil_r.
  - destruct (tick_line_Ok _ _ _ _ (Hticks i ltac:(lia)))
      as (cpu & ior & iow & -> & Hline).
    rewrite timestamp_exact by lia.
    replace (t + 6 * Z.of_nat i + 4 + 2 - t) with (6 * Z.of_nat (S i)) by lia.
    replace (t + 6 * Z.of_nat i + 4 + 2) with (t + 6 * Z.of_nat (S i)) by lia.
    rewrite (IH (S i) fuel _ e);
      [| lia | lia | intros k Hk; apply Hticks; lia
       | now replace (S i + n)%nat with (i + S n)%nat by lia].
    rewrite <- Hline. cbn [seq fmap list_fmap]. now rewrite <- app_assoc.
Qed.
End RunFacts.

(** X15.  With the default run time of 60 seconds a run makes 11 ticks,
    not 10: tick [k] starts at clock [t + 6 k], the loop is left only
    when the elapsed time exceeds 60, and when the 11 ticks succeed
    [Main] prints their 11 lines and exits with status 0 at clock
    [t + 66].  Twelve tests of the loop condition are enough. *)
Theorem Main_completes (proc : string -> Z -> string) (t : Z) (fuel : nat)
    (line : nat -> string) :
  0 <= t -> t + 66 < 2 ^ 53 -> (12 <= fuel)%nat ->
  (forall k, (k < 11)%nat -> tick_line proc t k = Ok (line k)) ->
  Main proc fuel t = Some (Exited 0 (t + 66) (line <$> seq 0 11)).
Proof.
  intros Hlo Hhi Hfuel Hticks. unfold Main, Start.
  rewrite timestamp_exact by lia.
  rewrite <- (Z.add_0_r t) at 2. change 0 with (6 * Z.of_nat 0).
  rewrite (Start_loop_completes proc t (conj Hlo Hhi) line 11 0 fuel []);
    [reflexivity | lia | lia | intros k Hk; apply Hticks; lia].
Qed.

(** X16.  A tick that fails ends the run: when tick [k] is the first
    whose sampling raises, [Main] stops with that exception uncaught,
    having printed the lines of the [k] ticks before it and nothing
    else, and the exit status is 1. *)
Theorem Main_fails_at (proc : string -> Z -> string) (t : Z) (fuel k : nat)
    (line : nat -> string) (e : exn) :
  0 <= t -> t + 66 < 2 ^ 53 -> (k < 11)%nat -> (k < fuel)%nat ->
  (forall j, (j < k)%nat -> tick_line proc t j = Ok (line j)) ->
  tick_line proc t k = Raise e ->
  Main proc fuel t = Some (Uncaught e (line <$> seq 0 k))
  /\ exit_status (Uncaught e (line <$> seq 0 k)) = 1.
Proof.
  intros Hlo Hhi Hk Hfuel Hticks Hfail. split; [|reflexivity].
  unfold Main, Start. rewrite timestamp_exact by lia.
  rewrite <- (Z.add_0_r t) at 2. change 0 with (6 * Z.of_nat 0).
  rewrite (Start_loop_fails proc t (conj Hlo Hhi) line k 0 fuel [] e);
    [reflexivity | lia | lia | intros j Hj; apply Hticks; lia | exact Hfail].
Qed.

Lemma Main_completes_witness :
  Main moving_proc 12 0
    = Some (Exited 0 (0 + 66) (printed moving_proc 0 <$> seq 0 11)).
Proof.
  apply (Main_completes moving_proc 0 12 (printed moving_proc 0)).
  - lia.
  - vm_compute. reflexivity.
  - lia.
  - intros k Hk.
    do 11 (destruct k as [|k]; [vm_compute; reflexivity|]). lia.
Defined.

Lemma Main_fails_at_witness :
  Main sample_proc 12 0
    = Some (Uncaught ZeroDivisionError (printed sample_proc 0 <$> seq 0 1))
  /\ exit_status (Uncaught ZeroDivisionError (printed sample_proc 0 <$> seq 0 1))
     = 1.
Proof.
  apply (Main_fails_at sample_proc 0 12 1 (printed sample_proc 0) ZeroDivisionError).
  - lia.
  - vm_compute. reflexivity.
  - lia.
  - lia.
  - intros j Hj. destruct j as [|j]; [vm_compute; reflexivity | lia].
  - vm_compute. reflexivity.
Defined.

Example moving_proc_first_line :
  printed moving_proc 0 0 = "CPU 25.00% IO rkbps 249.682 IO wkbps 62.600"%string.
Proof. vm_compute. reflexivity. Qed.

(** ** The disk reader on the kernel's layout *)

Lemma append_assoc (a b c : string) : ((a +:+ b) +:+ c) = (a +:+ (b +:+ c)).
Proof. induction a as [|x a IH]; [reflexivity|]. now rewrite !append_cons, IH. Qed.

Lemma print_row_head fields :
  exists ws s, print_row fields = String ws s /\ py_isspace ws = true.
Proof. destruct fields; cbn [print_row]; eexists _, _; split; reflexivity. Qed.

Lemma split_ws_space ws s : py_isspace ws = true -> split_ws (String ws s) = split_ws s.
Proof. intros Hws. cbn [split_ws]. now rewrite Hws. Qed.

Lemma split_ws_token tok ws s :
  field_ok tok -> py_isspace ws = true ->
  split_ws (tok +:+ String ws s) = tok :: split_ws s.
Proof.
  intros [Hne Hsp] Hws. induction tok as [|c tok IH]; [congruence|].
  cbn [has_space] in Hsp. apply orb_false_elim in Hsp as [Hc Htok].
  destruct tok as [|c' tok'].
  - change (split_ws (String c (String ws s)) = [String c EmptyString] ++ split_ws s).
    cbn [split_ws]. rewrite Hc, Hws. reflexivity.
  - cbn [has_space] in Htok. pose proof Htok as Htok0.
    apply orb_false_elim in Htok as [Hc' Htok'].
    rewrite !append_cons. rewrite append_cons in IH.
    cbn [split_ws]. rewrite Hc, Hc'.
    cbn [split_ws] in IH. rewrite Hc' in IH.
    rewrite IH; [reflexivity | discriminate | exact Htok0].
Qed.

Lemma split_ws_print_row fields :
  Forall field_ok fields -> split_ws (print_row fields) = fields.
Proof.
  induction 1 as [|tok toks Htok Htoks IH]; [reflexivity|].
  cbn [print_row]. rewrite append_cons.
  change (EmptyString +:+ ?x) with x.
  rewrite split_ws_space by reflexivity.
  destruct (print_row_head toks) as (ws & s & Hrow & Hws).
  rewrite Hrow, split_ws_token by assumption.
  rewrite <- (split_ws_space ws s Hws), <- Hrow, IH. reflexivity.
Qed.

Lemma lines_print_row fields rest :
  Forall field_ok fields ->
  lines (print_row fields +:+ rest) = print_row fields :: lines rest.
Proof.
  induction 1 as [|tok toks [_ Htok] Htoks IH]; [reflexivity|].
  cbn [print_row]. rewrite !append_cons.
  change (EmptyString +:+ ?x) with x. rewrite append_assoc.
  cbn [lines]. change (Ascii.eqb " " LF) with false. cbv iota.
  assert (Hshift : lines (tok +:+ print_row toks +:+ rest)
                   = (tok +:+ print_row toks) :: lines rest).
  { revert IH. generalize (print_row toks). intros r IH.
    clear Htoks. induction tok as [|c tok IHtok]; [exact IH|].
    cbn [has_space] in Htok. apply orb_false_elim in Htok as [Hc Htok].
    rewrite !append_cons. cbn [lines].
    replace (Ascii.eqb c LF) with false
      by (symmetry; apply Ascii.eqb_neq; intros ->; discriminate).
    now rewrite (IHtok Htok). }
  now rewrite Hshift.
Qed.

Lemma lines_print_table rows :
  Forall (Forall field_ok) rows -> lines (print_table rows) = print_row <$> rows.
Proof.
  induction 1 as [|r rs Hr Hrs IH]; [reflexivity|].
  cbn [print_table fmap list_fmap]. rewrite lines_print_row by exact Hr.
  now rewrite IH.
Qed.

Lemma scan_unmonitored_rows disks rows st :
  Forall (Forall field_ok) rows ->
  Forall (fun r => exists name, r !! 2%nat = Some name /\ name ∉ disks) rows ->
  for_each (print_row <$> rows) (scan_line disks) st = Ok st.
Proof.
  intros Hok Hnames. apply scan_no_match. intros l Hl.
  apply list_elem_of_fmap in Hl as (r & -> & Hr).
  rewrite Forall_forall in Hok, Hnames.
  rewrite split_ws_print_row by (now apply Hok). now apply Hnames.
Qed.

(** X17.  On a table in the kernel's layout that holds one row of a
    monitored disk, with non-negative counters printed in decimal, among
    rows of other devices, [GetIOData]'s scan returns the two rates of
    that row, or fails with a division by zero when the row's
    milliseconds read or written are 0; the other rows do not matter. *)
Theorem io_bandwidth_of_table (disks : list string)
    (before after : list (list string)) (row : list string) (name : string)
    (sectors_read ms_read sectors_written ms_write : Z) :
  Forall (Forall field_ok) (before ++ row :: after) ->
  Forall (fun r => exists other, r !! 2%nat = Some other /\ other ∉ disks)
    (before ++ after) ->
  row !! 2%nat = Some name -> name ∈ disks ->
  0 <= sectors_read -> 0 <= ms_read -> 0 <= sectors_written -> 0 <= ms_write ->
  row !! 5%nat = Some (decimal sectors_read) ->
  row !! 6%nat = Some (decimal ms_read) ->
  row !! 9%nat = Some (decimal sectors_written) ->
  row !! 10%nat = Some (decimal ms_write) ->
  io_bandwidth_of disks (print_table (before ++ row :: after)) =
    if (ms_read =? 0) || (ms_write =? 0) then Raise ZeroDivisionError
    else Ok [fmul (fdiv (Z2F 1) (fdiv (Z2F ms_read) (Z2F 1000)))
                  (fdiv (fmul (Z2F sectors_read) (Z2F 512)) (Z2F 128));
             fmul (fdiv (Z2F 1) (fdiv (Z2F ms_write) (Z2F 1000)))
                  (fdiv (fmul (Z2F sectors_written) (Z2F 512)) (Z2F 128))].
Proof.
  intros Hok Hother Hname Hin Hsr Hmr Hsw Hmw H5 H6 H9 H10.
  apply Forall_app in Hother as [Hbefore Hafter].
  pose proof Hok as Hall. apply Forall_app in Hall as [Hokb Hrest].
  apply Forall_cons in Hrest as [Hrow Hoka].
  unfold io_bandwidth_of. rewrite (lines_print_table _ Hok).
  rewrite fmap_app, for_each_app. cbn [fmap list_fmap].
  rewrite (scan_unmonitored_rows disks before None Hokb Hbefore).
  cbn [mbind result_bind for_each].
  rewrite scan_line_monitored
    by (exists name; rewrite split_ws_print_row by exact Hrow; auto).
  rewrite split_ws_print_row by exact Hrow.
  rewrite (CalculateIOBandwidth_decimal row sectors_read ms_read sectors_written
             ms_write) by assumption.
  destruct ((ms_read =? 0) || (ms_write =? 0)); [reflexivity|].
  cbn [mbind result_bind].
  rewrite (scan_unmonitored_rows disks after _ Hoka Hafter). reflexivity.
Qed.

Lemma io_bandwidth_of_table_witness :
  io_bandwidth_of DISKS_TO_MONITOR
    (print_table
       ([["7"; "0"; "loop0"; "1"; "2"; "3"; "4"; "5"; "6"; "7"; "8"]%string]
        ++ ["8"; "0"; "sda"; "1200"; "30"; decimal 256; decimal 2000; "700";
            "15"; decimal 128; decimal 1000; "0"; "2500"; "3300"]%string
        :: [["8"; "1"; "sda1"; "9"; "9"; "9"; "0"; "9"; "9"; "9"; "0"]%string]))
    = if (2000 =? 0) || (1000 =? 0) then Raise ZeroDivisionError
      else Ok [fmul (fdiv (Z2F 1) (fdiv (Z2F 2000) (Z2F 1000)))
                    (fdiv (fmul (Z2F 256) (Z2F 512)) (Z2F 128));
               fmul (fdiv (Z2F 1) (fdiv (Z2F 1000) (Z2F 1000)))
                    (fdiv (fmul (Z2F 128) (Z2F 512)) (Z2F 128))].
Proof.
  apply (io_bandwidth_of_table DISKS_TO_MONITOR
           [["7"; "0"; "loop0"; "1"; "2"; "3"; "4"; "5"; "6"; "7"; "8"]%string]
           [["8"; "1"; "sda1"; "9"; "9"; "9"; "0"; "9"; "9"; "9"; "0"]%string]
           _ "sda" 256 2000 128 1000); try lia; try reflexivity.
  - repeat constructor; discriminate.
  - repeat constructor; eexists; (split; [reflexivity|]);
      intros Hin; apply list_elem_of_singleton in Hin; discriminate.
  - left.
Defined.

(** ** The CPU percentage from two reads in the kernel's layout *)

(** X18.  When the CPU file shows, in the kernel's layout, counters
    [user, nice, system, idle] followed by any further counters, first
    one set and two seconds later another, [GetCPUStats] is the
    percentage derived from the differences of these four counters; the
    counters after the fourth and the lines after the first do not
    matter. *)
Theorem GetCPUStats_stat_text proc t
    (u1 n1 s1 i1 u2 n2 s2 i2 : Z) (more1 more2 : list Z) (rest1 rest2 : string) :
  Forall (fun c => 0 <= c) (u1 :: n1 :: s1 :: i1 :: more1) ->
  Forall (fun c => 0 <= c) (u2 :: n2 :: s2 :: i2 :: more2) ->
  proc CPU_DATA_FILE t = stat_text (u1 :: n1 :: s1 :: i1 :: more1) rest1 ->
  proc CPU_DATA_FILE (t + SAMPLE_INTERVAL)
    = stat_text (u2 :: n2 :: s2 :: i2 :: more2) rest2 ->
  GetCPUStats proc t =
    (pct ← cpu_percentage [u2 - u1; n2 - n1; s2 - s1; i2 - i1];
     Ok (pct, t + SAMPLE_INTERVAL)).
Proof.
  intros Hpos1 Hpos2 Hread1 Hread2.
  rewrite GetCPUStats_run, Hread1, Hread2.
  rewrite !cpu_usage_counters by assumption. reflexivity.
Qed.

Lemma GetCPUStats_stat_text_witness :
  GetCPUStats moving_proc 0 =
    (pct ← cpu_percentage [102 - 100; 0 - 0; 0 - 0; 306 - 300];
     Ok (pct, 0 + SAMPLE_INTERVAL)).
Proof.
  apply (GetCPUStats_stat_text moving_proc 0 100 0 0 300 102 0 0 306
           [50; 0; 7] [50; 0; 7] "cpu0 1 2 3 4 5 6 7" "cpu0 1 2 3 4 5 6 7");
    try reflexivity; repeat constructor; lia.
Defined.
